(** * Truck Lookup: column resolver and record filter of [app.py]

  A shallow embedding of the two pieces of logic of the Streamlit script
  [app.py]: the keyword heuristic [suggest_column] that guesses which column
  plays which role, and the filter block that projects the four mapped
  columns and keeps the rows whose truck number matches the query.

  Modelling conventions.
  - A Python [str] is a Rocq [string].  The model covers the ASCII
    repertoire (code points 0..127): there [str.lower], [str.casefold] and
    the case-insensitive comparison of [re.IGNORECASE] all reduce to the
    mapping A-Z -> a-z.  Characters above 127 carry no case mapping here.
  - A pandas [DataFrame] is an ordered list of named columns, each column a
    list of scalars (the way [make_example_df] builds it).  Cells are
    strings, integers or the missing value NaN.
  - pandas is modelled with the semantics of the 2.x series, object dtype:
    [astype(str)] applies [str()] to every element, NaN included.
  - Exceptions are values of [exn]; code that may raise returns a
    [result]. *)

From Stdlib Require Import Strings.String Strings.Ascii Lists.List ZArith.ZArith
Bool.Bool Arith.PeanoNat micromega.Lia Numbers.DecimalString.
Import ListNotations.
Local Open Scope string_scope.
Local Open Scope list_scope.
Local Open Scope nat_scope.

Set Implicit Arguments.

(* ================================================================= *)
(** ** Python strings *)

Module PyStr.

(** Code point of a character. *)
Definition ord (c : ascii) : nat := nat_of_ascii c.

(** [str.isspace] on one ASCII character: TAB, LF, VT, FF, CR, the four
    separators FS, GS, RS, US and the space. *)
Definition is_space (c : ascii) : bool :=
  let n := ord c in
  ((9 <=? n) && (n <=? 13)) || ((28 <=? n) && (n <=? 31)) || (n =? 32).

Definition is_upper (c : ascii) : bool :=
  let n := ord c in (65 <=? n) && (n <=? 90).

Definition lower_char (c : ascii) : ascii :=
  if is_upper c then ascii_of_nat (ord c + 32) else c.

(** [s.lower()] *)
Fixpoint lower (s : string) : string :=
  match s with
  | EmptyString => EmptyString
  | String c s' => String (lower_char c) (lower s')
  end.

(** [s.casefold()]; on ASCII text case folding is lower-casing. *)
Definition casefold (s : string) : string := lower s.

(** [s.lstrip()] *)
Fixpoint lstrip (s : string) : string :=
  match s with
  | EmptyString => EmptyString
  | String c s' => if is_space c then lstrip s' else s
  end.

(** [s.rstrip()] *)
Fixpoint rstrip (s : string) : string :=
  match s with
  | EmptyString => EmptyString
  | String c s' =>
      match rstrip s' with
      | EmptyString => if is_space c then EmptyString else String c EmptyString
      | r => String c r
      end
  end.

(** [s.strip()] *)
Definition strip (s : string) : string := rstrip (lstrip s).

(** [s.startswith(p)] *)
Fixpoint startswith (p s : string) : bool :=
  match p, s with
  | EmptyString, _ => true
  | String a p', String b s' => Ascii.eqb a b && startswith p' s'
  | String _ _, EmptyString => false
  end.

(** [k in s]: substring containment. *)
Fixpoint contains (k s : string) : bool :=
  startswith k s ||
  match s with
  | EmptyString => false
  | String _ s' => contains k s'
  end.

(** Truthiness of a string: non-empty. *)
Definition truthy (s : string) : bool :=
  match s with EmptyString => false | _ => true end.

(** [str(z)] for an integer. *)
Definition str_of_int (z : Z) : string := NilZero.string_of_int (Z.to_int z).

End PyStr.

(* ================================================================= *)
(** ** Exceptions and results *)

Inductive exn : Type :=
  | KeyError (label : string)       (* a column label that is not in the frame *)
  | ValueError                      (* length mismatch when assigning columns *)
  | ReError (msg : string).         (* re.error of re.compile; message without position *)

(** Outcome of code that may raise.  [Unmodelled] marks a call whose
  arguments use regular-expression syntax outside the fragment of the
  [re] module that this development covers; nothing is claimed there. *)
Inductive result (A : Type) : Type :=
  | Ok (a : A)
  | Raise (e : exn)
  | Unmodelled.

Arguments Ok {A} a.
Arguments Raise {A} e.
Arguments Unmodelled {A}.

Definition bind {A B} (m : result A) (k : A -> result B) : result B :=
  match m with
  | Ok a => k a
  | Raise e => Raise e
  | Unmodelled => Unmodelled
  end.

Notation "x <- m ;; k" := (bind m (fun x => k))
  (at level 61, m at next level, right associativity).

(* ================================================================= *)
(** ** Data frames *)

Inductive scalar : Type :=
  | SStr (s : string)
  | SInt (z : Z)
  | SNaN.

(** [str(v)] as applied elementwise by [Series.astype(str)]. *)
Definition str_of (v : scalar) : string :=
  match v with
  | SStr s => s
  | SInt z => PyStr.str_of_int z
  | SNaN => "nan"
  end.

Definition Series := list scalar.

(** Ordered, named columns. *)
Definition DataFrame := list (string * Series).

Definition columns (df : DataFrame) : list string := map fst df.

(** [len(df)]: the number of rows. *)
Definition len (df : DataFrame) : nat :=
  match df with
  | [] => 0
  | (_, s) :: _ => length s
  end.

(** Every column has the same number of cells. *)
Definition well_formed (df : DataFrame) : Prop :=
  Forall (fun col => length (snd col) = len df) df.

(** The [i]-th row, one cell per column ([None] past the end). *)
Definition row (i : nat) (df : DataFrame) : list (option scalar) :=
  map (fun col => nth_error (snd col) i) df.

(** All rows, in index order. *)
Definition rows (df : DataFrame) : list (list (option scalar)) :=
  map (fun i => row i df) (seq 0 (len df)).

(** [df[name]]: the column with that label. *)
Fixpoint getitem (df : DataFrame) (name : string) : result Series :=
  match df with
  | [] => Raise (KeyError name)
  | (c, s) :: df' => if String.eqb c name then Ok s else getitem df' name
  end.

(** [df[[l1, ..., ln]]]: for each requested label, in order, the columns
  carrying it; [KeyError] as soon as one label is missing. *)
Fixpoint getitem_list (df : DataFrame) (labels : list string) : result DataFrame :=
  match labels with
  | [] => Ok []
  | l :: ls =>
      match filter (fun col => String.eqb (fst col) l) df with
      | [] => Raise (KeyError l)
      | hit => rest <- getitem_list df ls ;; Ok (hit ++ rest)
      end
  end.

(** [df.columns = names] *)
Definition set_columns (df : DataFrame) (names : list string) : result DataFrame :=
  if length df =? length names
  then Ok (combine names (map snd df))
  else Raise ValueError.

(** Selection by a boolean mask, [s[mask]]. *)
Fixpoint select {A} (mask : list bool) (s : list A) : list A :=
  match mask, s with
  | b :: mask', x :: s' => if b then x :: select mask' s' else select mask' s'
  | _, _ => []
  end.

(** [df.loc[mask]] *)
Definition loc (df : DataFrame) (mask : list bool) : DataFrame :=
  map (fun col => (fst col, select mask (snd col))) df.

(* ================================================================= *)
(** ** Helpers of app.py *)

(** [clean_columns]: strip every column label. *)
Definition clean_columns (df : DataFrame) : DataFrame :=
  map (fun col => (PyStr.strip (fst col), snd col)) df.

(** [suggest_column]: the first column whose lower-cased label contains one
    of the keywords.  The dictionary [lowered] of the source maps every label
    [c] of [cols] to [c.lower()], so [lowered[c]] is read as [lower c]. *)
Definition suggest_column (df : DataFrame) (keywords : list string) : option string :=
  let cols := columns df in
  find (fun c =>
          let lc := PyStr.lower c in
          existsb (fun k => PyStr.contains k lc) keywords) cols.

(** [make_example_df] *)
Definition make_example_df : DataFrame :=
  [ ("SR NO.", map SInt [1; 2; 3; 4; 5; 6]%Z);
    ("Date", repeat (SStr "16-08-2025") 6);
    ("Challan No.", map SStr ["101"; "102"; "103"; "104"; "105"; "106"]);
    ("Broker Name", repeat (SStr "SRPL COMPANY VEHICLE") 6);
    ("Truck No.", map SStr ["GJ06ZZ1406"; "GJ06BX1706"; "GJ06BV8677";
                            "GJ06BV8938"; "GJ06BX1823"; "GJ06BT9034"]);
    ("PAN Name", repeat (SStr "SRPL") 6);
    ("PAN No.", repeat (SStr "AAGCS6114G") 6) ].

(** The four guesses of the column-mapping section, in script order. *)
Definition truck_keywords := ["truck"; "vehicle"; "veh"].
Definition broker_keywords := ["broker"; "party"; "vendor"; "company"].
Definition panname_keywords := ["pan name"; "panname"; "name"].
Definition panno_keywords := ["pan no"; "pan"; "panno"; "pan number"].

Definition truck_guess (df : DataFrame) := suggest_column df truck_keywords.
Definition broker_guess (df : DataFrame) := suggest_column df broker_keywords.
Definition panname_guess (df : DataFrame) := suggest_column df panname_keywords.
Definition panno_guess (df : DataFrame) := suggest_column df panno_keywords.

(** Default of a mapping [selectbox]: the guess when it is a column of the
  frame, the first column otherwise ([None] when there is no column). *)
Definition selectbox_default (df : DataFrame) (guess : option string) : option string :=
  match guess with
  | Some g => if existsb (String.eqb g) (columns df) then Some g else hd_error (columns df)
  | None => hd_error (columns df)
  end.

(* ================================================================= *)
(** ** The fragment of Python's [re] module used by [str.contains]

  Covered syntax: ordinary characters, [.], alternation [|], groups
  [( )] and the greedy quantifiers [*], [+], [?].  Anchors, character
  sets, escapes, counted repeats, lazy and possessive quantifiers and the
  [(?...)] extensions are outside the fragment: [compile] answers
  [Unmodelled] for them.  The closing brackets on their own
  are ordinary characters, as in Python. *)

Module Re.

Inductive regex : Type :=
  | Void                         (* matches nothing; only produced by [deriv] *)
  | Eps
  | Lit (c : ascii)
  | Dot
  | Seq (r1 r2 : regex)
  | Alt (r1 r2 : regex)
  | Star (r : regex).

(** Comparison of a pattern character with a subject character, under the
    IGNORECASE flag or not. *)
Definition char_eq (ignorecase : bool) (c x : ascii) : bool :=
  if ignorecase
  then Ascii.eqb (PyStr.lower_char c) (PyStr.lower_char x)
  else Ascii.eqb c x.

(** [.] matches everything but a newline (no DOTALL flag). *)
Definition is_newline (x : ascii) : bool := PyStr.ord x =? 10.

(** *** Parser *)

(** A group under construction: the alternatives already closed by [|] and
    the items of the current alternative, both most recent first. *)
Record frame : Type := Frame { alts : list regex; items : list regex }.

Definition empty_frame : frame := Frame [] [].

Definition seq_of (its : list regex) : regex :=
  fold_left (fun acc it => Seq it acc) its Eps.

Definition close (f : frame) : regex :=
  fold_left (fun acc a => Alt a acc) (alts f) (seq_of (items f)).

Definition push (r : regex) (f : frame) : frame :=
  Frame (alts f) (r :: items f).

Definition quantify (q : ascii) (r : regex) : regex :=
  if Ascii.eqb q "*" then Star r
  else if Ascii.eqb q "+" then Seq r (Star r)
  else Alt r Eps.

Definition is_quantifier (c : ascii) : bool :=
  Ascii.eqb c "*" || Ascii.eqb c "+" || Ascii.eqb c "?".

(** Characters that start syntax outside the fragment. *)
Definition is_unmodelled (c : ascii) : bool :=
  Ascii.eqb c "^" || Ascii.eqb c "$" || Ascii.eqb c "[" ||
  Ascii.eqb c "\" || Ascii.eqb c "{".

(** Characters with a special meaning in a pattern. *)
Definition is_special (c : ascii) : bool :=
  Ascii.eqb c "." || Ascii.eqb c "(" || Ascii.eqb c ")" || Ascii.eqb c "|" ||
  is_quantifier c || is_unmodelled c.

(** One left-to-right pass.  [cur] is the innermost open group, [stack] the
    enclosing ones, [rep] tells that the previous character was a
    quantifier. *)
Fixpoint parse (s : string) (cur : frame) (stack : list frame) (rep : bool)
  : result regex :=
  match s with
  | EmptyString =>
      match stack with
      | [] => Ok (close cur)
      | _ :: _ => Raise (ReError "missing ), unterminated subpattern")
      end
  | String c s' =>
      if Ascii.eqb c "(" then
        match s' with
        | String "?" _ => Unmodelled
        | _ => parse s' empty_frame (cur :: stack) false
        end
      else if Ascii.eqb c ")" then
        match stack with
        | [] => Raise (ReError "unbalanced parenthesis")
        | parent :: stack' => parse s' (push (close cur) parent) stack' false
        end
      else if Ascii.eqb c "|" then
        parse s' (Frame (seq_of (items cur) :: alts cur) []) stack false
      else if is_quantifier c then
        match items cur with
        | [] => Raise (ReError "nothing to repeat")
        | it :: its =>
            if rep then
              if Ascii.eqb c "*" then Raise (ReError "multiple repeat")
              else Unmodelled
            else parse s' (Frame (alts cur) (quantify c it :: its)) stack true
        end
      else if is_unmodelled c then Unmodelled
      else if Ascii.eqb c "." then parse s' (push Dot cur) stack false
      else parse s' (push (Lit c) cur) stack false
  end.

(** [re.compile(pat)] *)
Definition compile (pat : string) : result regex := parse pat empty_frame [] false.

(** *** Matcher, by derivatives *)

Fixpoint nullable (r : regex) : bool :=
  match r with
  | Void => false
  | Eps => true
  | Lit _ => false
  | Dot => false
  | Seq r1 r2 => nullable r1 && nullable r2
  | Alt r1 r2 => nullable r1 || nullable r2
  | Star _ => true
  end.

Fixpoint deriv (ic : bool) (x : ascii) (r : regex) : regex :=
  match r with
  | Void => Void
  | Eps => Void
  | Lit c => if char_eq ic c x then Eps else Void
  | Dot => if is_newline x then Void else Eps
  | Seq r1 r2 =>
      if nullable r1
      then Alt (Seq (deriv ic x r1) r2) (deriv ic x r2)
      else Seq (deriv ic x r1) r2
  | Alt r1 r2 => Alt (deriv ic x r1) (deriv ic x r2)
  | Star r1 => Seq (deriv ic x r1) (Star r1)
  end.

(** [r.match(s) is not None]: some prefix of [s] matches. *)
Fixpoint match_prefix (ic : bool) (r : regex) (s : string) : bool :=
  nullable r ||
  match s with
  | EmptyString => false
  | String x s' => match_prefix ic (deriv ic x r) s'
  end.

(** [r.search(s) is not None]: a match starts somewhere in [s]. *)
Fixpoint search (ic : bool) (r : regex) (s : string) : bool :=
  match_prefix ic r s ||
  match s with
  | EmptyString => false
  | String _ s' => search ic r s'
  end.

(** *** Reference semantics: the language of a regular expression *)

Inductive matches (ic : bool) : regex -> string -> Prop :=
  | MEps : matches ic Eps ""
  | MLit c x : char_eq ic c x = true -> matches ic (Lit c) (String x "")
  | MDot x : is_newline x = false -> matches ic Dot (String x "")
  | MSeq r1 r2 s1 s2 :
      matches ic r1 s1 -> matches ic r2 s2 -> matches ic (Seq r1 r2) (s1 ++ s2)
  | MAltL r1 r2 s : matches ic r1 s -> matches ic (Alt r1 r2) s
  | MAltR r1 r2 s : matches ic r2 s -> matches ic (Alt r1 r2) s
  | MStarNil r : matches ic (Star r) ""
  | MStarApp r s1 s2 :
      matches ic r s1 -> matches ic (Star r) s2 -> matches ic (Star r) (s1 ++ s2).

End Re.

(* ================================================================= *)
(** ** The pandas string methods of the filter block *)

(** [s.astype(str)] *)
Definition astype_str (s : Series) : Series := map (fun v => SStr (str_of v)) s.

(** [s.str.casefold()]; an element that is not a string becomes NaN. *)
Definition str_casefold (s : Series) : Series :=
  map (fun v => match v with SStr x => SStr (PyStr.casefold x) | _ => SNaN end) s.

(** [s == q] for a string [q], elementwise. *)
Definition eq_str (s : Series) (q : string) : list bool :=
  map (fun v => match v with SStr x => String.eqb x q | _ => false end) s.

(** [s.str.contains(pat, case=case, na=na)] with the default [regex=True]:
  the pattern is compiled once, then searched in every string element; an
  element that is not a string yields [na]. *)
Definition str_contains (s : Series) (pat : string) (case na : bool)
  : result (list bool) :=
  r <- Re.compile pat ;;
  Ok (map (fun v => match v with
                    | SStr x => Re.search (negb case) r x
                    | _ => na
                    end) s).

(* ================================================================= *)
(** ** Search controls and filter logic *)

Definition out_labels : list string :=
  ["Truck No."; "Broker Name"; "PAN Name"; "PAN No."].

(** [active_query = (selected[0] if selected else query).strip()] *)
Definition active_query (selected : list string) (query : string) : string :=
  PyStr.strip (match selected with s :: _ => s | [] => query end).

(** [res = _df[[truck_col, broker_col, panname_col, panno_col]].copy()]
  followed by [res.columns = [...]]. *)
Definition project_view (_df : DataFrame)
  (truck_col broker_col panname_col panno_col : string) : result DataFrame :=
  res <- getitem_list _df [truck_col; broker_col; panname_col; panno_col] ;;
  set_columns res out_labels.

(** The [if active_query:] block. *)
Definition apply_filter (res : DataFrame) (active_query : string) (exact : bool)
  : result DataFrame :=
  if PyStr.truthy active_query then
    mask <- (if exact then
               col <- getitem res "Truck No." ;;
               Ok (eq_str (str_casefold (astype_str col)) (PyStr.casefold active_query))
             else
               col <- getitem res "Truck No." ;;
               str_contains (astype_str col) active_query false false) ;;
    Ok (loc res mask)
  else Ok res.

(** The whole lookup: projection, then filter, on the text typed by the
  user (no pick from the list). *)
Definition filter_logic (_df : DataFrame)
  (truck_col broker_col panname_col panno_col : string)
  (query : string) (exact : bool) : result DataFrame :=
  res <- project_view _df truck_col broker_col panname_col panno_col ;;
  apply_filter res (active_query [] query) exact.

(** [count = len(res)] *)
Definition count (r : result DataFrame) : result nat := res <- r ;; Ok (len res).

(* ================================================================= *)
(** ** Vocabulary of the statements *)

(** Whitespace-only text, the empty string included. *)
Fixpoint blank (s : string) : bool :=
  match s with
  | EmptyString => true
  | String c s' => PyStr.is_space c && blank s'
  end.

(** Patterns without special characters. *)
Module Plain.
Import Re.

(** No character of the text has a special meaning in a pattern. *)
Fixpoint plain (s : string) : bool :=
  match s with
  | EmptyString => true
  | String c s' => negb (is_special c) && plain s'
  end.

(** The pattern that matches the characters of [s] one after the other. *)
Fixpoint literal (s : string) : regex :=
  match s with
  | EmptyString => Eps
  | String c s' => Seq (Lit c) (literal s')
  end.

Fixpoint lits_rev (s : string) (acc : list regex) : list regex :=
  match s with
  | EmptyString => acc
  | String c s' => lits_rev s' (Lit c :: acc)
  end.

End Plain.

(** All columns have [n] cells. *)
Definition uniform (n : nat) (df : DataFrame) : Prop :=
  Forall (fun col => length (snd col) = n) df.

(** The frame without its first row. *)
Definition tails (df : DataFrame) : DataFrame :=
  map (fun col => (fst col, tl (snd col))) df.

(** The truck number of a row of the projected view, as a string. *)
Definition identifier (r : list (option scalar)) : string :=
  match r with
  | Some v :: _ => str_of v
  | _ => ""
  end.

(** The two row predicates of the filter. *)
Definition exact_row (aq : string) (r : list (option scalar)) : bool :=
  String.eqb (PyStr.casefold (identifier r)) (PyStr.casefold aq).

Definition substring_row (aq : string) (r : list (option scalar)) : bool :=
  PyStr.contains (PyStr.lower aq) (PyStr.lower (identifier r)).

(* ================================================================= *)
(** ** Frames used in the scenarios *)

(** Scenario A: one row, truck number GJ06BX1706. *)
Definition one_truck_df : DataFrame :=
  [ ("Truck No.", [SStr "GJ06BX1706"]);
    ("Broker Name", [SStr "SRPL COMPANY VEHICLE"]);
    ("PAN Name", [SStr "SRPL"]);
    ("PAN No.", [SStr "AAGCS6114G"]) ].

(** A sheet whose first row has an empty truck-number cell, as read by
  [pd.read_csv]. *)
Definition null_truck_df : DataFrame :=
  [ ("Truck No.", [SNaN; SStr "GJ06BX1706"]);
    ("Broker Name", [SStr "SRPL COMPANY VEHICLE"; SStr "SRPL COMPANY VEHICLE"]);
    ("PAN Name", [SStr "SRPL"; SStr "SRPL"]);
    ("PAN No.", [SStr "AAGCS6114G"; SStr "AAGCS6114G"]) ].

(** A sheet with an identifier that contains a plus sign. *)
Definition plus_truck_df : DataFrame :=
  [ ("Truck No.", [SStr "A+B"; SStr "GJ06BX1706"]);
    ("Broker Name", [SStr "SRPL COMPANY VEHICLE"; SStr "SRPL COMPANY VEHICLE"]);
    ("PAN Name", [SStr "SRPL"; SStr "SRPL"]);
    ("PAN No.", [SStr "AAGCS6114G"; SStr "AAGCS6114G"]) ].

(** Only the two PAN columns. *)
Definition pan_only_df : DataFrame :=
  [ ("PAN Name", [SStr "SRPL"]); ("PAN No.", [SStr "AAGCS6114G"]) ].

(** The lookup with the mapping the four select boxes show by default.  On a
    frame without any column the boxes hold [None] and the projection raises
    [KeyError]. *)
Definition default_lookup (d : DataFrame) (query : string) (exact : bool)
  : result DataFrame :=
  match selectbox_default d (truck_guess d), selectbox_default d (broker_guess d),
        selectbox_default d (panname_guess d), selectbox_default d (panno_guess d) with
  | Some t, Some b, Some pn, Some pno => filter_logic d t b pn pno query exact
  | _, _, _, _ => Raise (KeyError "")
  end.

(** The lookup with every role mapped to the column of the same label. *)
Definition labelled_lookup (d : DataFrame) (query : string) (exact : bool)
  : result DataFrame :=
  filter_logic d "Truck No." "Broker Name" "PAN Name" "PAN No." query exact.

(** Scenario B read to the letter: four rows, the five listed trucks. *)
Definition scenario_B_as_stated (out : DataFrame) : Prop :=
  len out = 4 /\
  getitem out "Truck No." =
    Ok (map SStr ["GJ06BX1706"; "GJ06BV8677"; "GJ06BV8938"; "GJ06BX1823"; "GJ06BT9034"]).

(* ================================================================= *)
(** ** The rest of the script: data source, pick list, selection *)

(** [s.endswith(suf)] *)
Fixpoint endswith (suf s : string) : bool :=
  String.eqb suf s ||
  match s with
  | EmptyString => false
  | String _ s' => endswith suf s'
  end.

(** [s.endswith((suf1, ..., sufn))] *)
Definition endswith_any (sufs : list string) (s : string) : bool :=
  existsb (fun suf => endswith suf s) sufs.

(** The pandas reader [load_file] hands the upload to. *)
Inductive reader : Type := ReadCsv | ReadExcel.

(** Outcome of [load_file]: the reader called on the upload, or [None],
    with or without the "Unsupported file type" warning.  What the readers
    make of the bytes is not modelled. *)
Inductive load_outcome : Type :=
| Loaded (by_reader : reader)
| NotLoaded (warned : bool).

(** [load_file], on the name of the uploaded file ([None]: no upload). *)
Definition load_file (uploaded_file : option string) : load_outcome :=
  match uploaded_file with
  | None => NotLoaded false
  | Some fname =>
      let name := PyStr.lower fname in
      if endswith_any [".csv"; ".txt"] name then Loaded ReadCsv
      else if endswith_any [".xlsx"; ".xlsm"; ".xls"] name then Loaded ReadExcel
      else NotLoaded true
  end.

(** The [type=] list of the sidebar uploader. *)
Definition uploader_types : list string := ["csv"; "txt"; "xlsx"; "xlsm"; "xls"].

(** Where [df_raw] comes from. *)
Inductive data_source : Type :=
| FromUpload (by_reader : reader)
| FromExample
| Stopped.

(** The choice of [df_raw] and the [st.stop()] that follows when it is
    [None]. *)
Definition choose_source (uploaded : option string) (use_example : bool)
  : data_source :=
  match uploaded with
  | Some _ =>
      match load_file uploaded with
      | Loaded r => FromUpload r
      | NotLoaded _ => Stopped
      end
  | None => if use_example then FromExample else Stopped
  end.

(** [s.dropna()] *)
Definition dropna (s : Series) : Series :=
  filter (fun v => match v with SNaN => false | _ => true end) s.

(** [s.unique()] on strings: the distinct values, in order of first
    appearance. *)
Fixpoint unique (l : list string) : list string :=
  match l with
  | [] => []
  | x :: l' => x :: filter (fun y => negb (String.eqb y x)) (unique l')
  end.

Fixpoint insert_sorted (x : string) (l : list string) : list string :=
  match l with
  | [] => [x]
  | y :: l' => if String.leb x y then x :: l else y :: insert_sorted x l'
  end.

(** [sorted(l)] for strings, which Python compares code point by code
    point; the sorted list of a list of strings is unique, here it is built
    by insertion. *)
Fixpoint sorted (l : list string) : list string :=
  match l with
  | [] => []
  | x :: l' => insert_sorted x (sorted l')
  end.

(** [unique_trucks = sorted(col.dropna().astype(str).unique())], on the
    column [col = _df[truck_col]]. *)
Definition unique_trucks (col : Series) : list string :=
  sorted (unique (map str_of (dropna col))).

(** The lookup as the script runs it: [selected] is what the multiselect
    holds (at most one option of [unique_trucks]), [query] the typed text. *)
Definition run_lookup (_df : DataFrame)
  (truck_col broker_col panname_col panno_col : string)
  (selected : list string) (query : string) (exact : bool) : result DataFrame :=
  res <- project_view _df truck_col broker_col panname_col panno_col ;;
  apply_filter res (active_query selected query) exact.

(** ** Vocabulary of the further statements *)

(** The text begins, or ends, with a whitespace character. *)
Definition starts_space (s : string) : bool :=
  match s with
  | EmptyString => false
  | String c _ => PyStr.is_space c
  end.

Fixpoint ends_space (s : string) : bool :=
  match s with
  | EmptyString => false
  | String c EmptyString => PyStr.is_space c
  | String _ s' => ends_space s'
  end.

(** No whitespace at either end. *)
Definition trimmed (s : string) : Prop :=
  starts_space s = false /\ ends_space s = false.

(** The text holds an upper-case ASCII letter. *)
Fixpoint has_upper (s : string) : bool :=
  match s with
  | EmptyString => false
  | String c s' => PyStr.is_upper c || has_upper s'
  end.

(** A column label matches a keyword list, in the sense of
    [suggest_column]. *)
Definition label_matches (keywords : list string) (c : string) : bool :=
  existsb (fun k => PyStr.contains k (PyStr.lower c)) keywords.

(** The columns that carry a label. *)
Definition carriers (l : string) (df : DataFrame) : DataFrame :=
  filter (fun col => String.eqb (fst col) l) df.

(** [a] is [b] with some elements removed, order kept. *)
Inductive subseq {A : Type} : list A -> list A -> Prop :=
| subseq_nil : subseq [] []
| subseq_skip x a b : subseq a b -> subseq a (x :: b)
| subseq_keep x a b : subseq a b -> subseq (x :: a) (x :: b).

(** Nesting depth of the parentheses of a pattern after reading it from
    depth [d]; [None] when a closing parenthesis has nothing to close. *)
Fixpoint paren_depth (s : string) (d : nat) : option nat :=
  match s with
  | EmptyString => Some d
  | String c s' =>
      if Ascii.eqb c "(" then paren_depth s' (S d)
      else if Ascii.eqb c ")" then
        match d with
        | 0 => None
        | S d' => paren_depth s' d'
        end
      else paren_depth s' d
  end.

(** The test a truck number, as a string, has to pass to be kept: the
    case-folded comparison in exact mode, the search of the compiled query
    otherwise (compiling may raise). *)
Definition row_test (aq : string) (exact : bool) : result (string -> bool) :=
  if exact
  then Ok (fun x => String.eqb (PyStr.casefold x) (PyStr.casefold aq))
  else r <- Re.compile aq ;; Ok (Re.search true r).

(** Strictly ascending, neighbour by neighbour. *)
Fixpoint ascending (l : list string) : Prop :=
  match l with
  | [] => True
  | x :: l' =>
      match l' with
      | [] => True
      | y :: _ => String.ltb x y = true /\ ascending l'
      end
  end.

(* ================================================================= *)
(** ** Facts about strings *)

Section StringFacts.

Lemma sapp_nil_r (s : string) : (s ++ "")%string = s.
  Proof. induction s as [|c s IH]; simpl; [reflexivity | now rewrite IH]. Qed.

Lemma sapp_assoc (a b c : string) :
    ((a ++ b) ++ c)%string = (a ++ (b ++ c))%string.
  Proof. induction a as [|x a IH]; simpl; [reflexivity | now rewrite IH]. Qed.

Lemma sapp_eq_nil (a b : string) :
    (a ++ b)%string = "" -> a = "" /\ b = "".
  Proof. destruct a; simpl; [auto | discriminate]. Qed.

Lemma lower_app (a b : string) :
    PyStr.lower (a ++ b) = (PyStr.lower a ++ PyStr.lower b)%string.
  Proof. induction a as [|x a IH]; simpl; [reflexivity | now rewrite IH]. Qed.

(** A split of the lower-cased text comes from a split of the text. *)
Lemma lower_split (a b s : string) :
  PyStr.lower s = (a ++ b)%string ->
  exists s1 s2, s = (s1 ++ s2)%string /\ PyStr.lower s1 = a /\ PyStr.lower s2 = b.
Proof.
  revert s; induction a as [|x a IH]; intros s H.
  - exists "", s. auto.
  - destruct s as [|y s]; simpl in H; [discriminate|].
    inversion H as [[Hx Hs]].
    destruct (IH _ Hs) as (s1 & s2 & -> & <- & <-).
    exists (String y s1), s2. auto.
Qed.

Lemma startswith_spec (p s : string) :
  PyStr.startswith p s = true <-> exists post, s = (p ++ post)%string.
Proof.
  revert s; induction p as [|a p IH]; intros s; simpl.
  - split; [intros _; now exists s | reflexivity].
  - destruct s as [|b s].
    + split; [discriminate | intros [post H]; discriminate].
    + rewrite andb_true_iff, Ascii.eqb_eq, IH. split.
      * intros [-> [post ->]]. now exists post.
      * intros [post H]. inversion H. split; [reflexivity | now exists post].
Qed.

Lemma contains_spec (k s : string) :
  PyStr.contains k s = true <->
  exists pre post, s = (pre ++ k ++ post)%string.
Proof.
  induction s as [|c s IH]; simpl; rewrite orb_true_iff, startswith_spec.
  - split.
    + intros [[post H] | H]; [now exists "", post | discriminate].
    + intros (pre & post & H). left.
      destruct pre; simpl in H; [now exists post | discriminate].
  - rewrite IH. split.
    + intros [[post H] | (pre & post & ->)].
      * now exists "", post.
      * now exists (String c pre), post.
    + intros (pre & post & H). destruct pre as [|x pre]; simpl in H.
      * left. now exists post.
      * right. inversion H. now exists pre, post.
Qed.

Lemma lstrip_blank (s : string) : blank s = true -> PyStr.lstrip s = "".
Proof.
  induction s as [|c s IH]; simpl; [reflexivity|].
  intros H; apply andb_true_iff in H as [Hc Hs]. now rewrite Hc, IH.
Qed.

Lemma strip_blank (s : string) : blank s = true -> PyStr.strip s = "".
  Proof. intros H. unfold PyStr.strip. now rewrite lstrip_blank. Qed.

Lemma rstrip_nil_blank (s : string) : PyStr.rstrip s = "" -> blank s = true.
Proof.
  induction s as [|c s IH]; simpl; [reflexivity|].
  destruct (PyStr.rstrip s); [|discriminate].
  destruct (PyStr.is_space c); [intros _; now rewrite IH | discriminate].
Qed.

Lemma lstrip_blank_inv (s : string) : blank (PyStr.lstrip s) = true -> blank s = true.
Proof.
  induction s as [|c s IH]; simpl; [reflexivity|].
  destruct (PyStr.is_space c) eqn:Hc; simpl; [exact IH | now rewrite Hc].
Qed.

(** The stripped query is empty exactly for whitespace-only text. *)
Lemma strip_nil_iff (s : string) : PyStr.strip s = "" <-> blank s = true.
Proof.
  split; [|apply strip_blank].
  intros H. apply lstrip_blank_inv, rstrip_nil_blank, H.
Qed.

Lemma truthy_false_iff (s : string) : PyStr.truthy s = false <-> s = "".
  Proof. destruct s; simpl; split; congruence. Qed.

Lemma truthy_true_iff (s : string) : PyStr.truthy s = true <-> s <> "".
  Proof. destruct s; simpl; split; congruence. Qed.

End StringFacts.

(* ================================================================= *)
(** ** Correctness of the matcher *)

Module ReFacts.
Import Re.

Create HintDb re.
#[local] Hint Constructors matches : re.

Lemma matches_nil_nullable ic r s :
  matches ic r s -> s = "" -> nullable r = true.
Proof.
  induction 1; intros E; simpl; try discriminate; auto.
  - apply sapp_eq_nil in E as [E1 E2]. now rewrite IHmatches1, IHmatches2.
  - now rewrite IHmatches.
  - rewrite IHmatches by assumption. apply orb_true_r.
Qed.

Lemma nullable_matches_nil ic r : nullable r = true -> matches ic r "".
Proof.
  induction r; simpl; intros H; try discriminate; auto with re.
  - apply andb_true_iff in H as [H1 H2].
    change "" with ("" ++ "")%string. auto with re.
  - apply orb_true_iff in H as [H|H]; auto with re.
Qed.

Lemma nullable_spec ic r : nullable r = true <-> matches ic r "".
Proof.
  split; [apply nullable_matches_nil | intros H; now apply (matches_nil_nullable H)].
Qed.

Lemma deriv_sound ic x r : forall s,
  matches ic (deriv ic x r) s -> matches ic r (String x s).
Proof.
  induction r; simpl; intros s H.
  - inversion H.
  - inversion H.
  - destruct (char_eq ic c x) eqn:E; inversion H; subst. now constructor.
  - destruct (is_newline x) eqn:E; inversion H; subst. now constructor.
  - assert (Hseq : forall t, matches ic (Seq (deriv ic x r1) r2) t ->
                             matches ic (Seq r1 r2) (String x t)).
    { intros t Ht. inversion Ht; subst.
      change (String x (s1 ++ s2)) with (String x s1 ++ s2)%string.
      auto with re. }
    destruct (nullable r1) eqn:N; [|auto].
    inversion H; subst; [auto|].
    change (String x s) with ("" ++ String x s)%string.
    constructor; [now apply nullable_matches_nil | auto].
  - inversion H; subst; auto with re.
  - inversion H; subst.
    change (String x (s1 ++ s2)) with (String x s1 ++ s2)%string.
    auto with re.
Qed.

Lemma deriv_complete ic x r s0 :
  matches ic r s0 -> forall s, s0 = String x s -> matches ic (deriv ic x r) s.
Proof.
  induction 1; intros t E; simpl.
  - discriminate.
  - inversion E; subst. rewrite H. constructor.
  - inversion E; subst. rewrite H. constructor.
  - destruct s1 as [|y s1]; simpl in E.
    + subst s2. rewrite (matches_nil_nullable H eq_refl). auto with re.
    + inversion E; subst.
      assert (matches ic (Seq (deriv ic x r1) r2) (s1 ++ s2)) by auto with re.
      destruct (nullable r1); auto with re.
  - auto with re.
  - auto with re.
  - discriminate.
  - destruct s1 as [|y s1]; simpl in E.
    + now apply IHmatches2.
    + inversion E; subst. auto with re.
Qed.

Lemma deriv_spec ic x r s :
  matches ic (deriv ic x r) s <-> matches ic r (String x s).
Proof.
  split; [apply deriv_sound | intros H; now apply (deriv_complete H)].
Qed.

(** [match_prefix] finds a match anchored at the start. *)
Lemma match_prefix_spec ic s : forall r,
  match_prefix ic r s = true <->
  exists m post, s = (m ++ post)%string /\ matches ic r m.
Proof.
  induction s as [|x s IH]; intros r; simpl; rewrite orb_true_iff.
  - split.
    + intros [N|N]; [|discriminate].
      exists "", "". split; [reflexivity | now apply nullable_matches_nil].
    + intros (m & post & E & M). left.
      symmetry in E. apply sapp_eq_nil in E as [-> _].
      now apply (matches_nil_nullable M).
  - rewrite IH. split.
    + intros [N | (m & post & -> & M)].
      * exists "", (String x s). split; [reflexivity | now apply nullable_matches_nil].
      * exists (String x m), post. split; [reflexivity | now apply deriv_sound].
    + intros (m & post & E & M). destruct m as [|y m]; simpl in E.
      * left. now apply (matches_nil_nullable M).
      * right. inversion E; subst. exists m, post.
        split; [reflexivity | now apply (deriv_complete M)].
Qed.

(** [search] finds a match anywhere in the subject. *)
Lemma search_spec ic r s :
  search ic r s = true <->
  exists pre m post, s = (pre ++ m ++ post)%string /\ matches ic r m.
Proof.
  induction s as [|x s IH];
    cbn [search]; rewrite orb_true_iff, match_prefix_spec.
  - split.
    + intros [(m & post & E & M) | H]; [|discriminate]. now exists "", m, post.
    + intros (pre & m & post & E & M). left.
      destruct pre; simpl in E; [now exists m, post | discriminate].
  - rewrite IH. split.
    + intros [(m & post & E & M) | (pre & m & post & -> & M)].
      * now exists "", m, post.
      * now exists (String x pre), m, post.
    + intros (pre & m & post & E & M). destruct pre as [|y pre]; simpl in E.
      * left. now exists m, post.
      * right. inversion E; subst. now exists pre, m, post.
Qed.

End ReFacts.

(* ================================================================= *)
(** ** Patterns without special characters: facts *)

Module PlainFacts.
Import Re Plain.

Lemma not_special c :
  is_special c = false ->
  Ascii.eqb c "(" = false /\ Ascii.eqb c ")" = false /\ Ascii.eqb c "|" = false /\
  is_quantifier c = false /\ is_unmodelled c = false /\ Ascii.eqb c "." = false.
Proof.
  unfold is_special. intros H.
  repeat (apply orb_false_iff in H; destruct H as [H ?]).
  repeat split; assumption.
Qed.

Lemma parse_plain q : plain q = true -> forall cur rep,
  parse q cur [] rep = Ok (close (Frame (alts cur) (lits_rev q (items cur)))).
Proof.
  induction q as [|c q IH]; intros P cur rep.
  - destruct cur; reflexivity.
  - cbn [plain] in P. apply andb_true_iff in P as [Hc Hq].
    apply negb_true_iff, not_special in Hc as (H1 & H2 & H3 & H4 & H5 & H6).
    cbn [parse]. rewrite H1, H2, H3, H4, H5, H6.
    rewrite (IH Hq). reflexivity.
Qed.

Lemma seq_of_lits_rev q : forall acc,
  seq_of (lits_rev q acc) = fold_left (fun a it => Seq it a) acc (literal q).
Proof.
  unfold seq_of. induction q as [|c q IH]; intros acc; simpl.
  - (* both sides fold [acc], from [Eps] *) reflexivity.
  - rewrite IH. reflexivity.
Qed.

(** A pattern without special characters compiles, to its literal. *)
Lemma compile_plain q : plain q = true -> compile q = Ok (literal q).
Proof.
  intros P. unfold compile. rewrite (parse_plain _ P).
  unfold close; cbn [alts items empty_frame fold_left].
  now rewrite seq_of_lits_rev.
Qed.

Lemma matches_literal q : forall m,
  matches true (literal q) m <-> PyStr.lower m = PyStr.lower q.
Proof.
  induction q as [|c q IH]; intros m; simpl.
  - split.
    + intros H. inversion H. reflexivity.
    + destruct m; [constructor | discriminate].
  - split.
    + intros H. inversion H as [| | |r1 r2 s1 s2 M1 M2| | | |]; subst.
      inversion M1 as [|c' x E| | | | | |]; subst. simpl.
      unfold char_eq in E. apply Ascii.eqb_eq in E.
      apply IH in M2. now rewrite E, M2.
    + destruct m as [|x m]; simpl; [discriminate|].
      intros H. inversion H as [[Hx Hm]].
      change (String x m) with (String x "" ++ m)%string.
      constructor.
      * constructor. unfold char_eq. rewrite Hx. apply Ascii.eqb_refl.
      * now apply IH.
Qed.

(** Searching a literal, ignoring case, is substring containment of the
    lower-cased texts. *)
Lemma search_literal q s :
  search true (literal q) s = PyStr.contains (PyStr.lower q) (PyStr.lower s).
Proof.
  apply Bool.eq_iff_eq_true.
  rewrite ReFacts.search_spec, contains_spec. split.
  - intros (pre & m & post & -> & M). apply matches_literal in M.
    exists (PyStr.lower pre), (PyStr.lower post).
    now rewrite !lower_app, M.
  - intros (pre & post & E).
    apply lower_split in E as (s1 & s2 & -> & <- & E2).
    apply lower_split in E2 as (m & s3 & -> & Hm & <-).
    exists s1, m, s3. split; [reflexivity | now apply matches_literal].
Qed.

End PlainFacts.

(* ================================================================= *)
(** ** Facts about data frames: masks and rows *)

Section FrameFacts.

Lemma well_formed_uniform df : well_formed df <-> uniform (len df) df.
  Proof. reflexivity. Qed.

Lemma uniform_len n df : uniform n df -> df <> [] -> len df = n.
Proof.
  destruct df as [|[c s] df]; [congruence|].
  intros H _. inversion H; subst. reflexivity.
Qed.

Lemma select_length_le {A} (mask : list bool) : forall s : list A,
  length (select mask s) <= length s.
Proof.
  induction mask as [|b mask IH]; intros [|x s]; simpl; try lia.
  specialize (IH s). destruct b; simpl; lia.
Qed.

Lemma select_length {A} (mask : list bool) : forall s : list A,
  length s = length mask ->
  length (select mask s) = length (filter (fun b => b) mask).
Proof.
  induction mask as [|b mask IH]; intros [|x s]; simpl; try discriminate; auto.
  intros H. injection H as H. destruct b; simpl; now rewrite IH.
Qed.

Lemma select_map_filter {A} (g : A -> bool) (l : list A) :
  select (map g l) l = filter g l.
Proof.
  induction l as [|x l IH]; simpl; [reflexivity|].
  destruct (g x); now rewrite IH.
Qed.

Lemma len_loc_le df mask : len (loc df mask) <= len df.
  Proof. destruct df as [|[c s] df]; simpl; [lia | apply select_length_le]. Qed.

Lemma row_S i df : row (S i) df = row i (tails df).
Proof.
  unfold row, tails. rewrite map_map. apply map_ext.
  intros [c s]; simpl. destruct s; [now destruct i | reflexivity].
Qed.

Lemma tails_uniform n df : uniform (S n) df -> uniform n (tails df).
Proof.
  unfold uniform, tails. rewrite Forall_map. apply Forall_impl.
  intros [c s]; simpl. destruct s; simpl; [discriminate | congruence].
Qed.

Lemma rows_uniform_S n df :
  df <> [] -> uniform (S n) df -> rows df = row 0 df :: rows (tails df).
Proof.
  intros Hne Hu. unfold rows.
  rewrite (uniform_len Hu Hne).
  assert (Hne' : tails df <> []) by (destruct df; [congruence | discriminate]).
  rewrite (uniform_len (tails_uniform Hu) Hne').
  cbn [seq map]. f_equal.
  rewrite <- seq_shift, map_map. apply map_ext. intros i. apply row_S.
Qed.

Lemma loc_false_tails n df m :
  uniform (S n) df -> loc df (false :: m) = loc (tails df) m.
Proof.
  intros Hu. unfold loc, tails. rewrite map_map.
  apply map_ext_in. intros [c s] Hin.
  apply (proj1 (Forall_forall _ _) Hu) in Hin. simpl in *.
  destruct s; [discriminate | reflexivity].
Qed.

Lemma loc_true_tails n df m :
  uniform (S n) df -> tails (loc df (true :: m)) = loc (tails df) m.
Proof.
  intros Hu. unfold loc, tails. rewrite !map_map.
  apply map_ext_in. intros [c s] Hin.
  apply (proj1 (Forall_forall _ _) Hu) in Hin. simpl in *.
  destruct s; [discriminate | reflexivity].
Qed.

Lemma loc_true_row0 n df m :
  uniform (S n) df -> row 0 (loc df (true :: m)) = row 0 df.
Proof.
  intros Hu. unfold loc, row. rewrite map_map.
  apply map_ext_in. intros [c s] Hin.
  apply (proj1 (Forall_forall _ _) Hu) in Hin. simpl in *.
  destruct s; [discriminate | reflexivity].
Qed.

Lemma loc_uniform df m :
  uniform (length m) df ->
  uniform (length (filter (fun b => b) m)) (loc df m).
Proof.
  unfold uniform, loc. rewrite Forall_map. apply Forall_impl.
  intros [c s]; simpl. intros H. now apply select_length.
Qed.

(** Selecting by a mask commutes with reading the frame row by row. *)
Lemma rows_loc mask : forall df,
  uniform (length mask) df -> rows (loc df mask) = select mask (rows df).
Proof.
  induction mask as [|b mask IH]; intros df Hu.
  - destruct df as [|[c s] df]; reflexivity.
  - destruct df as [|col df]; [reflexivity|].
    set (d := col :: df) in *.
    assert (Hne : d <> []) by discriminate.
    simpl length in Hu.
    rewrite (rows_uniform_S Hne Hu). cbn [select].
    rewrite <- (IH _ (tails_uniform Hu)).
    destruct b.
    + pose proof (loc_uniform (true :: mask) Hu) as Hu'. simpl in Hu'.
      assert (Hne' : loc d (true :: mask) <> []) by discriminate.
      rewrite (rows_uniform_S Hne' Hu').
      now rewrite (loc_true_row0 _ Hu), (loc_true_tails _ Hu).
    + now rewrite (loc_false_tails _ Hu).
Qed.

Lemma map_nth_error_seq {A B} (h : option A -> B) (s : list A) :
  map (fun i => h (nth_error s i)) (seq 0 (length s)) = map (fun v => h (Some v)) s.
Proof.
  induction s as [|x s IH]; [reflexivity|].
  cbn [length seq map nth_error]. f_equal.
  rewrite <- seq_shift, map_map. exact IH.
Qed.

(** Keeping the rows of a view whose first column satisfies [p] is
    filtering its rows by [p] on the identifier. *)
Lemma rows_loc_first (p : string -> bool) c s rest :
  uniform (length s) ((c, s) :: rest) ->
  rows (loc ((c, s) :: rest) (map (fun v => p (str_of v)) s))
  = filter (fun r => p (identifier r)) (rows ((c, s) :: rest)).
Proof.
  intros Hu. rewrite rows_loc by now rewrite length_map.
  rewrite <- select_map_filter. f_equal.
  unfold rows. rewrite map_map. cbn [len].
  rewrite <- (map_nth_error_seq
                (fun o => p (match o with Some v => str_of v | None => "" end)) s).
  apply map_ext. intros i. reflexivity.
Qed.

End FrameFacts.

(* ================================================================= *)
(** ** Facts about the projection and the two masks *)

Unset Implicit Arguments.

Section FilterFacts.

Lemma filter_nil_notin (l : string) (df : DataFrame) :
  ~ In l (columns df) -> filter (fun col => String.eqb (fst col) l) df = [].
Proof.
  induction df as [|[c s] df IH]; simpl; [reflexivity|].
  intros H. destruct (String.eqb_spec c l) as [E|E].
  - exfalso. apply H. now left.
  - apply IH. intros Hin. apply H. now right.
Qed.

Lemma getitem_head c s (rest : DataFrame) : getitem ((c, s) :: rest) c = Ok s.
  Proof. simpl. now rewrite String.eqb_refl. Qed.

(** The first column carrying a label is what [df[label]] reads. *)
Lemma getitem_filter l : forall (df : DataFrame) col hit,
  filter (fun c => String.eqb (fst c) l) df = col :: hit ->
  getitem df l = Ok (snd col).
Proof.
  induction df as [|[c s] df IH]; simpl; intros col hit H; [discriminate|].
  destruct (String.eqb c l); [now inversion H | eauto].
Qed.

(** A projection that succeeds found exactly one column per label. *)
Lemma project_view_inv df tc bc pc nc res :
  project_view df tc bc pc nc = Ok res ->
  exists c1 c2 c3 c4,
    (In c1 df /\ getitem df tc = Ok (snd c1)) /\
    (In c2 df /\ getitem df bc = Ok (snd c2)) /\
    (In c3 df /\ getitem df pc = Ok (snd c3)) /\
    (In c4 df /\ getitem df nc = Ok (snd c4)) /\
    res = [("Truck No.", snd c1); ("Broker Name", snd c2);
           ("PAN Name", snd c3); ("PAN No.", snd c4)].
Proof.
  unfold project_view. cbn [getitem_list].
  destruct (filter (fun col => String.eqb (fst col) tc) df) as [|c1 t1] eqn:E1;
    [discriminate|].
  destruct (filter (fun col => String.eqb (fst col) bc) df) as [|c2 t2] eqn:E2;
    [discriminate|].
  destruct (filter (fun col => String.eqb (fst col) pc) df) as [|c3 t3] eqn:E3;
    [discriminate|].
  destruct (filter (fun col => String.eqb (fst col) nc) df) as [|c4 t4] eqn:E4;
    [discriminate|].
  cbn [bind]. unfold set_columns.
  destruct (Nat.eqb_spec
              (length ((c1 :: t1) ++ (c2 :: t2) ++ (c3 :: t3) ++ (c4 :: t4) ++ []))
              (length out_labels)) as [L|L]; [|discriminate].
  rewrite !length_app in L. cbn [length out_labels] in L.
  destruct t1; [|simpl in L; lia]. destruct t2; [|simpl in L; lia].
  destruct t3; [|simpl in L; lia]. destruct t4; [|simpl in L; lia].
  intros H. injection H as <-.
  assert (Hin : forall l c, filter (fun col => String.eqb (fst col) l) df = [c] ->
                            In c df /\ getitem df l = Ok (snd c)).
  { intros l c E. split; [|exact (getitem_filter l df c [] E)].
    assert (I : In c (filter (fun col => String.eqb (fst col) l) df))
      by (rewrite E; now left).
    now apply filter_In in I. }
  exists c1, c2, c3, c4.
  repeat split; solve [eapply Hin; eassumption | reflexivity].
Qed.

Lemma project_view_missing df tc bc pc nc :
  ~ In tc (columns df) -> project_view df tc bc pc nc = Raise (KeyError tc).
Proof.
  intros H. unfold project_view. cbn [getitem_list].
  now rewrite (filter_nil_notin _ _ H).
Qed.

(** The view of a well-formed frame has the same number of rows, in
    every column. *)
Lemma project_view_uniform df tc bc pc nc res :
  well_formed df -> project_view df tc bc pc nc = Ok res ->
  uniform (len df) res /\ len res = len df.
Proof.
  intros W H.
  destruct (project_view_inv _ _ _ _ _ _ H)
    as (c1 & c2 & c3 & c4 & [I1 _] & [I2 _] & [I3 _] & [I4 _] & ->).
  pose proof (proj1 (Forall_forall _ _) W) as F.
  split; [|exact (F _ I1)].
  repeat constructor; simpl; auto.
Qed.

(** Row [i] of the view holds the cells of row [i] in the four mapped
    columns. *)
Lemma project_view_rows df tc bc pc nc res :
  well_formed df -> project_view df tc bc pc nc = Ok res ->
  exists s1 s2 s3 s4,
    getitem df tc = Ok s1 /\ getitem df bc = Ok s2 /\
    getitem df pc = Ok s3 /\ getitem df nc = Ok s4 /\
    rows res = map (fun i => [nth_error s1 i; nth_error s2 i;
                              nth_error s3 i; nth_error s4 i])
                   (seq 0 (len df)).
Proof.
  intros W H. destruct (project_view_uniform _ _ _ _ _ _ W H) as [_ L].
  destruct (project_view_inv _ _ _ _ _ _ H)
    as (c1 & c2 & c3 & c4 & [_ G1] & [_ G2] & [_ G3] & [_ G4] & ->).
  exists (snd c1), (snd c2), (snd c3), (snd c4).
  repeat split; try assumption.
  unfold rows. now rewrite L.
Qed.

Lemma exact_mask (col : Series) (q : string) :
    eq_str (str_casefold (astype_str col)) q
    = map (fun v => String.eqb (PyStr.casefold (str_of v)) q) col.
  Proof. unfold eq_str, str_casefold, astype_str. now rewrite !map_map. Qed.

Lemma contains_mask_plain (col : Series) (q : string) :
  Plain.plain q = true ->
  str_contains (astype_str col) q false false
  = Ok (map (fun v => PyStr.contains (PyStr.lower q) (PyStr.lower (str_of v))) col).
Proof.
  intros P. unfold str_contains, astype_str.
  rewrite (PlainFacts.compile_plain _ P). cbn [bind negb]. rewrite map_map.
  f_equal. apply map_ext. intros v. apply PlainFacts.search_literal.
Qed.

Lemma apply_filter_exact s rest aq :
  aq <> "" ->
  let res := ("Truck No.", s) :: rest in
  apply_filter res aq true
  = Ok (loc res (map (fun v => String.eqb (PyStr.casefold (str_of v))
                                          (PyStr.casefold aq)) s)).
Proof.
  intros Hq res. unfold apply_filter.
  rewrite (proj2 (truthy_true_iff aq) Hq).
  unfold res. rewrite getitem_head. cbn [bind]. now rewrite exact_mask.
Qed.

Lemma apply_filter_plain s rest aq :
  aq <> "" -> Plain.plain aq = true ->
  let res := ("Truck No.", s) :: rest in
  apply_filter res aq false
  = Ok (loc res (map (fun v => PyStr.contains (PyStr.lower aq)
                                              (PyStr.lower (str_of v))) s)).
Proof.
  intros Hq P res. unfold apply_filter.
  rewrite (proj2 (truthy_true_iff aq) Hq).
  unfold res. rewrite getitem_head. cbn [bind].
  now rewrite (contains_mask_plain _ _ P).
Qed.

(** Exact mode on a view: the rows kept are those accepted by
    [exact_row]. *)
Lemma exact_rows df tc bc pc nc res aq :
  well_formed df -> project_view df tc bc pc nc = Ok res -> aq <> "" ->
  exists out, apply_filter res aq true = Ok out /\
              rows out = filter (exact_row aq) (rows res) /\
              len out <= len df.
Proof.
  intros W H Hq.
  destruct (project_view_uniform _ _ _ _ _ _ W H) as [U L].
  destruct (project_view_inv _ _ _ _ _ _ H) as (c1 & c2 & c3 & c4 & _ & _ & _ & _ & E).
  subst res. eexists. split; [apply (apply_filter_exact _ _ _ Hq)|]. split.
  - cbn [len] in L. rewrite <- L in U.
    exact (rows_loc_first
             (fun x => String.eqb (PyStr.casefold x) (PyStr.casefold aq)) U).
  - rewrite <- L. apply len_loc_le.
Qed.

(** Partial mode on a view, for a query without special characters: the
    rows kept are those accepted by [substring_row]. *)
Lemma plain_rows df tc bc pc nc res aq :
  well_formed df -> project_view df tc bc pc nc = Ok res ->
  aq <> "" -> Plain.plain aq = true ->
  exists out, apply_filter res aq false = Ok out /\
              rows out = filter (substring_row aq) (rows res) /\
              len out <= len df.
Proof.
  intros W H Hq P.
  destruct (project_view_uniform _ _ _ _ _ _ W H) as [U L].
  destruct (project_view_inv _ _ _ _ _ _ H) as (c1 & c2 & c3 & c4 & _ & _ & _ & _ & E).
  subst res. eexists. split; [apply (apply_filter_plain _ _ _ Hq P)|]. split.
  - cbn [len] in L. rewrite <- L in U.
    exact (rows_loc_first
             (fun x => PyStr.contains (PyStr.lower aq) (PyStr.lower x)) U).
  - rewrite <- L. apply len_loc_le.
Qed.

Lemma exact_row_substring_row aq r :
  exact_row aq r = true -> substring_row aq r = true.
Proof.
  unfold exact_row, substring_row, PyStr.casefold. intros H.
  apply String.eqb_eq in H. rewrite H. apply contains_spec.
  exists "", "". simpl. now rewrite sapp_nil_r.
Qed.

Lemma suggest_column_in df keywords c :
    suggest_column df keywords = Some c -> In c (columns df).
  Proof. unfold suggest_column. intros H. now apply find_some in H. Qed.

End FilterFacts.

(* ================================================================= *)
(** ** The whole lookup, mode by mode *)

Section Lookup.

Variables (df : DataFrame) (tc bc pc nc : string) (res : DataFrame).
  Hypothesis Hwf : well_formed df.
  Hypothesis Hview : project_view df tc bc pc nc = Ok res.

Lemma filter_logic_view q exact :
    filter_logic df tc bc pc nc q exact = apply_filter res (active_query [] q) exact.
  Proof. unfold filter_logic. now rewrite Hview. Qed.

(** Exact mode never raises and keeps the rows accepted by [exact_row]. *)
Lemma filter_logic_exact q :
  PyStr.strip q <> "" ->
  exists out, filter_logic df tc bc pc nc q true = Ok out /\
              rows out = filter (exact_row (PyStr.strip q)) (rows res) /\
              len out <= len df.
Proof.
  intros Hq. rewrite filter_logic_view.
  exact (exact_rows df tc bc pc nc res _ Hwf Hview Hq).
Qed.

(** Partial mode with a query free of special characters never raises and
    keeps the rows whose identifier contains the query, ignoring case. *)
Lemma filter_logic_plain q :
  PyStr.strip q <> "" -> Plain.plain (PyStr.strip q) = true ->
  exists out, filter_logic df tc bc pc nc q false = Ok out /\
              rows out = filter (substring_row (PyStr.strip q)) (rows res) /\
              len out <= len df.
Proof.
  intros Hq P. rewrite filter_logic_view.
  exact (plain_rows df tc bc pc nc res _ Hwf Hview Hq P).
Qed.

(** For a query free of special characters, what exact mode returns,
    partial mode returns too. *)
Lemma exact_subset_partial_plain q oute outp r :
  PyStr.strip q <> "" -> Plain.plain (PyStr.strip q) = true ->
  filter_logic df tc bc pc nc q true = Ok oute ->
  filter_logic df tc bc pc nc q false = Ok outp ->
  In r (rows oute) -> In r (rows outp).
Proof.
  intros Hq P He Hp.
  destruct (filter_logic_exact q Hq) as (o1 & E1 & R1 & _).
  destruct (filter_logic_plain q Hq P) as (o2 & E2 & R2 & _).
  rewrite He in E1. rewrite Hp in E2.
  injection E1 as <-. injection E2 as <-.
  rewrite R1, R2, !filter_In.
  intros [I X]. split; [assumption | now apply exact_row_substring_row].
Qed.

(** With an empty active query the view is returned as it is. *)
Lemma filter_logic_blank q exact :
  blank q = true -> filter_logic df tc bc pc nc q exact = Ok res.
Proof.
  intros B. rewrite filter_logic_view. unfold apply_filter, active_query.
  now rewrite (strip_blank _ B).
Qed.

End Lookup.


(* ================================================================= *)
(** ** The claims *)

(** C1 (fails on the code).  With [exact] off the query is handed to
    [str.contains] with its default [regex=True], so it is compiled as a
    regular expression and not looked up as literal text.  On the example
    table the query [.] returns all six rows although no truck number
    contains a dot: the rows with the dot as a case-insensitive literal
    substring are none. *)
Theorem dot_query_returns_rows_without_a_dot :
  exists res,
    project_view make_example_df "Truck No." "Broker Name" "PAN Name" "PAN No." = Ok res /\
    labelled_lookup make_example_df "." false = Ok res /\
    len res = 6 /\
    filter (substring_row ".") (rows res) = [].
Proof. eexists. repeat split; vm_compute; reflexivity. Qed.

(** C2 (fails on the code).  A frame can hold both a column "PAN Name" and a
    column "PAN No." and still get other guesses: on the example table the
    PAN-name guess is "Broker Name" and the PAN-number guess is "PAN Name";
    on a frame with only the two PAN columns both guesses are "PAN Name".
    (Cleaning the labels of the example table changes nothing.) *)
Theorem pan_columns_not_resolved_as_labelled :
  clean_columns make_example_df = make_example_df /\
  In "PAN Name" (columns make_example_df) /\
  In "PAN No." (columns make_example_df) /\
  panname_guess make_example_df = Some "Broker Name" /\
  panno_guess make_example_df = Some "PAN Name" /\
  panname_guess pan_only_df = Some "PAN Name" /\
  panno_guess pan_only_df = Some "PAN Name".
Proof.
  repeat split; try reflexivity; simpl; auto 10.
Qed.

(** C3.  With [exact] on and a query that is not blank, the lookup returns
    the rows of the view whose truck number, converted to a string and
    case-folded, equals the stripped, case-folded query, in their original
    order; a view of one row with truck number GJ06BX1706 queried with
    gj06bx1706 returns that row. *)
Theorem exact_filter_keeps_casefold_equal_rows
  (df : DataFrame) (tc bc pc nc q : string) (res : DataFrame) :
  well_formed df ->
  project_view df tc bc pc nc = Ok res ->
  PyStr.strip q <> "" ->
  exists out,
    filter_logic df tc bc pc nc q true = Ok out /\
    rows out = filter (fun r => String.eqb (PyStr.casefold (identifier r))
                                           (PyStr.casefold (PyStr.strip q)))
                      (rows res) /\
    (forall r, In r (rows out) <->
               In r (rows res) /\
               PyStr.casefold (identifier r) = PyStr.casefold (PyStr.strip q)) /\
    (forall r, q = "gj06bx1706" -> rows res = [r] ->
               identifier r = "GJ06BX1706" -> rows out = [r]).
Proof.
  intros W H Hq.
  destruct (filter_logic_exact df tc bc pc nc res W H q Hq) as (out & E & R & _).
  exists out. split; [exact E|]. split; [exact R|]. split.
  - intros r. rewrite R, filter_In. unfold exact_row.
    rewrite String.eqb_eq. reflexivity.
  - intros r -> Hr Hi. rewrite R, Hr. unfold exact_row. cbn [filter].
    rewrite Hi. reflexivity.
Qed.

Lemma exact_filter_keeps_casefold_equal_rows_witness :
  well_formed one_truck_df /\
  project_view one_truck_df "Truck No." "Broker Name" "PAN Name" "PAN No."
    = Ok one_truck_df /\
  PyStr.strip "gj06bx1706" <> "" /\
  exists out,
    filter_logic one_truck_df "Truck No." "Broker Name" "PAN Name" "PAN No."
                 "gj06bx1706" true = Ok out /\
    rows out = filter (fun r => String.eqb (PyStr.casefold (identifier r))
                                           (PyStr.casefold (PyStr.strip "gj06bx1706")))
                      (rows one_truck_df) /\
    (forall r, In r (rows out) <->
               In r (rows one_truck_df) /\
               PyStr.casefold (identifier r)
               = PyStr.casefold (PyStr.strip "gj06bx1706")) /\
    (forall r, "gj06bx1706" = "gj06bx1706" -> rows one_truck_df = [r] ->
               identifier r = "GJ06BX1706" -> rows out = [r]).
Proof.
  assert (W : well_formed one_truck_df) by (repeat constructor).
  assert (H : project_view one_truck_df "Truck No." "Broker Name" "PAN Name" "PAN No."
              = Ok one_truck_df) by reflexivity.
  assert (Hq : PyStr.strip "gj06bx1706" <> "") by (vm_compute; discriminate).
  split; [exact W|]. split; [exact H|]. split; [exact Hq|].
  exact (exact_filter_keeps_casefold_equal_rows
           one_truck_df "Truck No." "Broker Name" "PAN Name" "PAN No."
           "gj06bx1706" one_truck_df W H Hq).
Defined.

(** C4.  When the query is empty or only whitespace the filter block is
    skipped, whatever the mode: the lookup is the projected view itself, all
    rows in their original order, and the count is the number of rows of the
    input table. *)
Theorem blank_query_returns_whole_view
  (df : DataFrame) (tc bc pc nc q : string) (exact : bool) :
  blank q = true ->
  filter_logic df tc bc pc nc q exact = project_view df tc bc pc nc /\
  (forall res, apply_filter res (active_query [] q) exact = Ok res) /\
  (forall res, well_formed df -> project_view df tc bc pc nc = Ok res ->
               filter_logic df tc bc pc nc q exact = Ok res /\
               count (filter_logic df tc bc pc nc q exact) = Ok (len df)).
Proof.
  intros B.
  assert (A : forall res, apply_filter res (active_query [] q) exact = Ok res).
  { intros res. unfold apply_filter, active_query. now rewrite (strip_blank _ B). }
  split; [|split; [exact A|]].
  - unfold filter_logic. destruct (project_view df tc bc pc nc); cbn [bind]; auto.
  - intros res W H.
    assert (E : filter_logic df tc bc pc nc q exact = Ok res)
      by (unfold filter_logic; rewrite H; cbn [bind]; apply A).
    split; [exact E|]. rewrite E. cbn [count bind].
    now rewrite (proj2 (project_view_uniform _ _ _ _ _ _ W H)).
Qed.

Lemma blank_query_returns_whole_view_witness :
  blank "   " = true /\
  filter_logic make_example_df "Truck No." "Broker Name" "PAN Name" "PAN No." "   " true
  = project_view make_example_df "Truck No." "Broker Name" "PAN Name" "PAN No.".
Proof.
  split; [reflexivity|].
  exact (proj1 (blank_query_returns_whole_view
                  make_example_df "Truck No." "Broker Name" "PAN Name" "PAN No."
                  "   " true eq_refl)).
Defined.

(** C5 (fails on the code).  [astype(str)] turns a missing truck number into
    the text "nan", not into the empty string, before either mask is
    computed; the row then matches the query nan in exact mode and in
    partial mode. *)
Theorem null_identifier_matches_query_nan :
  astype_str [SNaN] = [SStr "nan"] /\
  (exists out, labelled_lookup null_truck_df "nan" true = Ok out /\
               getitem out "Truck No." = Ok [SNaN]) /\
  (exists out, labelled_lookup null_truck_df "nan" false = Ok out /\
               getitem out "Truck No." = Ok [SNaN]).
Proof.
  split; [reflexivity|]. split; eexists; split; vm_compute; reflexivity.
Qed.

(** C6 (fails on the code).  In partial mode a query that is not a
    well-formed regular expression makes [str.contains] raise: on the
    example table the query of one opening parenthesis ends in [re.error]
    and no row count is produced. *)
Theorem open_parenthesis_query_raises :
  labelled_lookup make_example_df "(" false
  = Raise (ReError "missing ), unterminated subpattern") /\
  count (labelled_lookup make_example_df "(" false)
  = Raise (ReError "missing ), unterminated subpattern").
Proof. split; vm_compute; reflexivity. Qed.

(** C7 (fails on the code).  For the single-token query a+b, exact mode
    returns the row whose truck number is A+B, and partial mode, reading
    the query as a regular expression, returns no row. *)
Theorem exact_row_missing_from_partial_result :
  (exists out, labelled_lookup plus_truck_df "a+b" true = Ok out /\
               getitem out "Truck No." = Ok [SStr "A+B"]) /\
  (exists out, labelled_lookup plus_truck_df "a+b" false = Ok out /\
               getitem out "Truck No." = Ok [] /\ rows out = []).
Proof.
  split; eexists; repeat split; vm_compute; reflexivity.
Qed.

(** C8, as stated: four rows.  The lookup on the example table does not
    return four rows. *)
Lemma scenario_B_is_not_four_rows :
  ~ exists out, labelled_lookup make_example_df "GJ06B" false = Ok out /\
                scenario_B_as_stated out.
Proof.
  intros (out & E & L & _).
  vm_compute in E. injection E as <-. vm_compute in L. discriminate.
Qed.

(** C8, amended.  On the example table the query GJ06B with [exact] off
    returns five rows: those of the trucks GJ06BX1706, GJ06BV8677,
    GJ06BV8938, GJ06BX1823 and GJ06BT9034, in that order; the row of
    GJ06ZZ1406 is left out.  This holds with the columns mapped by their
    labels and with the mapping the select boxes show by default. *)
Theorem scenario_B_returns_five_rows :
  let five := map SStr ["GJ06BX1706"; "GJ06BV8677"; "GJ06BV8938"; "GJ06BX1823";
                        "GJ06BT9034"] in
  (exists out,
      labelled_lookup make_example_df "GJ06B" false = Ok out /\
      len out = 5 /\
      getitem out "Truck No." = Ok five /\
      ~ In (Some (SStr "GJ06ZZ1406")) (map (hd None) (rows out))) /\
  (exists out,
      default_lookup make_example_df "GJ06B" false = Ok out /\
      len out = 5 /\
      getitem out "Truck No." = Ok five /\
      ~ In (Some (SStr "GJ06ZZ1406")) (map (hd None) (rows out))).
Proof.
  split; eexists; (split; [vm_compute; reflexivity|]);
    (split; [reflexivity|]); (split; [reflexivity|]);
    simpl; intuition discriminate.
Qed.

(** C9.  When the truck-number column named in the mapping is not a column
    of the table, the projection raises [KeyError] for that label, whatever
    the query and the mode: the lookup produces no table at all. *)
Theorem missing_identifier_column_raises_key_error
  (df : DataFrame) (tc bc pc nc q : string) (exact : bool) :
  ~ In tc (columns df) ->
  filter_logic df tc bc pc nc q exact = Raise (KeyError tc) /\
  (forall out, filter_logic df tc bc pc nc q exact <> Ok out).
Proof.
  intros H.
  assert (E : filter_logic df tc bc pc nc q exact = Raise (KeyError tc)).
  { unfold filter_logic. now rewrite (project_view_missing _ _ _ _ _ H). }
  split; [exact E|]. intros out. rewrite E. discriminate.
Qed.

Lemma missing_identifier_column_raises_key_error_witness :
  ~ In "Truck" (columns make_example_df) /\
  filter_logic make_example_df "Truck" "Broker Name" "PAN Name" "PAN No." "GJ06B" false
  = Raise (KeyError "Truck").
Proof.
  assert (H : ~ In "Truck" (columns make_example_df))
    by (simpl; intuition discriminate).
  split; [exact H|].
  exact (proj1 (missing_identifier_column_raises_key_error
                  make_example_df "Truck" "Broker Name" "PAN Name" "PAN No."
                  "GJ06B" false H)).
Defined.

(** C10.  The guesses are not injective: on the example table, whose columns
    are SR NO., Date, Challan No., Broker Name, Truck No., PAN Name and
    PAN No., the first column whose lower-cased label contains a PAN-name
    keyword is "Broker Name" (it contains "name"), which is also the broker
    guess. *)
Theorem example_broker_and_panname_guess_coincide :
  columns (clean_columns make_example_df)
  = ["SR NO."; "Date"; "Challan No."; "Broker Name"; "Truck No.";
     "PAN Name"; "PAN No."] /\
  PyStr.contains "name" (PyStr.lower "Broker Name") = true /\
  broker_guess make_example_df = Some "Broker Name" /\
  panname_guess make_example_df = Some "Broker Name" /\
  (exists (d : DataFrame) (c : string),
      broker_guess d = Some c /\ panname_guess d = Some c).
Proof.
  repeat split; try reflexivity.
  exists make_example_df, "Broker Name". split; reflexivity.
Qed.

(* ================================================================= *)
(** ** Further facts: characters and stripping *)

Section StripFacts.

Lemma is_space_lower_char c : PyStr.is_space (PyStr.lower_char c) = PyStr.is_space c.
Proof. destruct c as [[] [] [] [] [] [] [] []]; reflexivity. Qed.

Lemma is_upper_lower_char c : PyStr.is_upper (PyStr.lower_char c) = false.
Proof. destruct c as [[] [] [] [] [] [] [] []]; reflexivity. Qed.

Lemma starts_space_lstrip s : starts_space (PyStr.lstrip s) = false.
Proof.
  induction s as [|c s IH]; simpl; [reflexivity|].
  destruct (PyStr.is_space c) eqn:E; [exact IH | simpl; exact E].
Qed.

Lemma lstrip_id s : starts_space s = false -> PyStr.lstrip s = s.
Proof. destruct s as [|c s]; simpl; [reflexivity | now intros ->]. Qed.

Lemma ends_space_rstrip s : ends_space (PyStr.rstrip s) = false.
Proof.
  induction s as [|c s IH]; [reflexivity|].
  cbn [PyStr.rstrip]. destruct (PyStr.rstrip s) as [|a r].
  - destruct (PyStr.is_space c) eqn:E; [reflexivity | simpl; exact E].
  - exact IH.
Qed.

Lemma rstrip_id s : ends_space s = false -> PyStr.rstrip s = s.
Proof.
  induction s as [|c s IH]; [reflexivity|].
  destruct s as [|a t].
  - simpl. now intros ->.
  - intros H. change (ends_space (String a t) = false) in H.
    cbn [PyStr.rstrip]. cbn [PyStr.rstrip] in IH. now rewrite (IH H).
Qed.

Lemma starts_space_rstrip s :
  starts_space s = false -> starts_space (PyStr.rstrip s) = false.
Proof.
  destruct s as [|c s]; [reflexivity|].
  cbn [starts_space PyStr.rstrip]. intros E.
  destruct (PyStr.rstrip s); [now rewrite E | exact E].
Qed.

Lemma strip_trimmed s : trimmed (PyStr.strip s).
Proof.
  split; unfold PyStr.strip.
  - apply starts_space_rstrip, starts_space_lstrip.
  - apply ends_space_rstrip.
Qed.

Lemma strip_id s : trimmed s -> PyStr.strip s = s.
Proof.
  intros [H1 H2]. unfold PyStr.strip. rewrite (lstrip_id s H1). now apply rstrip_id.
Qed.

Lemma strip_idem s : PyStr.strip (PyStr.strip s) = PyStr.strip s.
Proof. apply strip_id, strip_trimmed. Qed.

Lemma starts_space_lower s : starts_space (PyStr.lower s) = starts_space s.
Proof. destruct s; simpl; [reflexivity | apply is_space_lower_char]. Qed.

Lemma ends_space_lower s : ends_space (PyStr.lower s) = ends_space s.
Proof.
  induction s as [|c s IH]; [reflexivity|].
  destruct s as [|a t]; [simpl; apply is_space_lower_char | exact IH].
Qed.

Lemma trimmed_lower s : trimmed (PyStr.lower s) <-> trimmed s.
Proof. unfold trimmed. now rewrite starts_space_lower, ends_space_lower. Qed.

Lemma has_upper_lower s : has_upper (PyStr.lower s) = false.
Proof.
  induction s as [|c s IH]; simpl; [reflexivity|].
  now rewrite is_upper_lower_char, IH.
Qed.

Lemma has_upper_app a b : has_upper (a ++ b) = has_upper a || has_upper b.
Proof.
  induction a as [|c a IH]; simpl; [reflexivity|].
  now rewrite IH, orb_assoc.
Qed.

(** A keyword with an upper-case letter is found in no lower-cased label. *)
Lemma upper_keyword_never_contained k s :
  has_upper k = true -> PyStr.contains k (PyStr.lower s) = false.
Proof.
  intros U. destruct (PyStr.contains k (PyStr.lower s)) eqn:C; [|reflexivity].
  apply contains_spec in C as (pre & post & E).
  pose proof (has_upper_lower s) as L. rewrite E, !has_upper_app, U in L.
  now rewrite orb_true_r in L.
Qed.

Lemma row_values i (df : DataFrame) :
  row i df = map (fun s => nth_error s i) (map snd df).
Proof. unfold row. now rewrite map_map. Qed.

Lemma clean_columns_values df : map snd (clean_columns df) = map snd df.
Proof. unfold clean_columns. rewrite map_map. now apply map_ext. Qed.

Lemma clean_columns_len df : len (clean_columns df) = len df.
Proof. destruct df as [|[c s] df]; reflexivity. Qed.

End StripFacts.

(** X1.  Cleaning the labels strips each one and nothing else: the cells,
    the number of rows and the rows are those of the raw frame, every label
    of the result is free of whitespace at both ends, and cleaning twice is
    cleaning once. *)
Theorem clean_columns_strips_labels_only (df : DataFrame) :
  map snd (clean_columns df) = map snd df /\
  len (clean_columns df) = len df /\
  rows (clean_columns df) = rows df /\
  columns (clean_columns df) = map PyStr.strip (columns df) /\
  Forall trimmed (columns (clean_columns df)) /\
  clean_columns (clean_columns df) = clean_columns df.
Proof.
  split; [apply clean_columns_values|]. split; [apply clean_columns_len|].
  assert (C : columns (clean_columns df) = map PyStr.strip (columns df)).
  { unfold columns, clean_columns. rewrite !map_map. now apply map_ext. }
  split; [|split; [exact C|split]].
  - unfold rows. rewrite clean_columns_len. apply map_ext. intros i.
    now rewrite !row_values, clean_columns_values.
  - rewrite C. apply Forall_map, Forall_forall. intros l _. apply strip_trimmed.
  - unfold clean_columns. rewrite map_map. apply map_ext.
    intros [c s]; simpl. now rewrite strip_idem.
Qed.

(* ================================================================= *)
(** ** Further facts: the column guesses and the projection *)

Section ResolverFacts.

Lemma find_first {A} (f : A -> bool) (l : list A) (x : A) :
  find f l = Some x <->
  exists pre post, l = pre ++ x :: post /\ f x = true /\
                   Forall (fun y => f y = false) pre.
Proof.
  split.
  - induction l as [|a l IH]; simpl; [discriminate|].
    destruct (f a) eqn:E.
    + intros H; injection H as <-. exists [], l. auto.
    + intros H. destruct (IH H) as (pre & post & -> & Hx & Hpre).
      exists (a :: pre), post. auto.
  - intros (pre & post & -> & Hx & Hpre).
    induction Hpre as [|a pre Ha _ IH]; simpl; [now rewrite Hx | now rewrite Ha].
Qed.

Lemma find_none_iff {A} (f : A -> bool) (l : list A) :
  find f l = None <-> Forall (fun y => f y = false) l.
Proof.
  induction l as [|a l IH]; simpl; [split; auto|].
  destruct (f a) eqn:E; split.
  - discriminate.
  - intros H. inversion H; congruence.
  - intros H. constructor; [exact E | now apply IH].
  - intros H. inversion H; subst. now apply IH.
Qed.

Lemma find_pointwise {A} (f g : A -> bool) (l : list A) :
  (forall x, f x = g x) -> find f l = find g l.
Proof.
  intros H. induction l as [|a l IH]; simpl; [reflexivity|].
  now rewrite H, IH.
Qed.

Lemma existsb_same_elements {A} (f : A -> bool) (l1 l2 : list A) :
  (forall x, In x l1 <-> In x l2) -> existsb f l1 = existsb f l2.
Proof.
  intros H. apply Bool.eq_iff_eq_true. rewrite !existsb_exists.
  split; intros (x & I & F); exists x; (split; [now apply H | exact F]).
Qed.

Lemma contains_empty s : PyStr.contains "" s = true.
Proof. destruct s; reflexivity. Qed.

Lemma carriers_nonempty l (df : DataFrame) :
  In l (columns df) -> carriers l df <> [].
Proof.
  unfold columns, carriers. intros H. apply in_map_iff in H as ([c s] & E & I).
  simpl in E. subst c. intros N.
  assert (X : In (l, s) (filter (fun col => String.eqb (fst col) l) df)).
  { apply filter_In. split; [exact I | apply String.eqb_refl]. }
  rewrite N in X. exact X.
Qed.

Lemma carriers_single l : forall df : DataFrame,
  NoDup (columns df) -> In l (columns df) -> exists c, carriers l df = [c].
Proof.
  induction df as [|[c s] df IH]; simpl; [intros _ []|].
  intros N I. inversion N as [|x xs Hx Hxs]; subst.
  destruct (String.eqb_spec c l) as [E|E].
  - subst c. exists (l, s). f_equal. exact (filter_nil_notin l df Hx).
  - destruct I as [I|I]; [congruence|]. now apply IH.
Qed.

(** The projection, when every requested label is carried by a column. *)
Lemma getitem_list_carriers df tc bc pc nc :
  In tc (columns df) -> In bc (columns df) ->
  In pc (columns df) -> In nc (columns df) ->
  getitem_list df [tc; bc; pc; nc]
  = Ok (carriers tc df ++ carriers bc df ++ carriers pc df ++ carriers nc df ++ []).
Proof.
  intros I1 I2 I3 I4. cbn [getitem_list].
  pose proof (carriers_nonempty _ _ I1) as N1.
  pose proof (carriers_nonempty _ _ I2) as N2.
  pose proof (carriers_nonempty _ _ I3) as N3.
  pose proof (carriers_nonempty _ _ I4) as N4.
  unfold carriers in *.
  destruct (filter (fun col => String.eqb (fst col) tc) df); [congruence|].
  destruct (filter (fun col => String.eqb (fst col) bc) df); [congruence|].
  destruct (filter (fun col => String.eqb (fst col) pc) df); [congruence|].
  destruct (filter (fun col => String.eqb (fst col) nc) df); [congruence|].
  reflexivity.
Qed.

(** With distinct labels, a mapping onto labels of the frame projects. *)
Lemma project_view_ok df tc bc pc nc :
  NoDup (columns df) ->
  In tc (columns df) -> In bc (columns df) ->
  In pc (columns df) -> In nc (columns df) ->
  exists res, project_view df tc bc pc nc = Ok res.
Proof.
  intros N I1 I2 I3 I4. unfold project_view.
  rewrite (getitem_list_carriers df tc bc pc nc I1 I2 I3 I4).
  destruct (carriers_single tc df N I1) as [c1 ->].
  destruct (carriers_single bc df N I2) as [c2 ->].
  destruct (carriers_single pc df N I3) as [c3 ->].
  destruct (carriers_single nc df N I4) as [c4 ->].
  eexists. reflexivity.
Qed.

Lemma selectbox_default_in df guess :
  match selectbox_default df guess with
  | Some c => In c (columns df)
  | None => columns df = []
  end.
Proof.
  assert (H : match hd_error (columns df) with
              | Some c => In c (columns df)
              | None => columns df = []
              end) by (destruct (columns df); simpl; auto).
  unfold selectbox_default. destruct guess as [g|]; [|exact H].
  destruct (existsb (String.eqb g) (columns df)) eqn:E; [|exact H].
  apply existsb_exists in E as (x & I & X). apply String.eqb_eq in X. now subst.
Qed.

End ResolverFacts.

(** X2.  [suggest_column] returns the first column, in frame order, whose
    lower-cased label contains one of the keywords: a guess [c] splits the
    labels into non-matching ones, [c], and the rest; there is no guess
    exactly when no label matches. *)
Theorem suggest_column_is_first_match (df : DataFrame) (keywords : list string) :
  (forall c, suggest_column df keywords = Some c <->
             exists pre post,
               columns df = pre ++ c :: post /\
               label_matches keywords c = true /\
               Forall (fun y => label_matches keywords y = false) pre) /\
  (suggest_column df keywords = None <->
   Forall (fun y => label_matches keywords y = false) (columns df)).
Proof.
  split.
  - intros c. exact (find_first (label_matches keywords) (columns df) c).
  - exact (find_none_iff (label_matches keywords) (columns df)).
Qed.

(** X3.  The guess depends on the set of keywords only: two keyword lists
    with the same elements, in any order and with any repetition, give the
    same guess on every frame.  Putting the specific keyword first gives it
    no priority. *)
Theorem suggest_column_ignores_keyword_order
  (df : DataFrame) (k1 k2 : list string) :
  (forall k, In k k1 <-> In k k2) ->
  suggest_column df k1 = suggest_column df k2.
Proof.
  intros H. unfold suggest_column. apply find_pointwise. intros c.
  now apply existsb_same_elements.
Qed.

Lemma suggest_column_ignores_keyword_order_witness :
  (forall k, In k ["pan no"; "pan"] <-> In k ["pan"; "pan no"; "pan"]) /\
  suggest_column make_example_df ["pan no"; "pan"]
  = suggest_column make_example_df ["pan"; "pan no"; "pan"].
Proof.
  assert (H : forall k, In k ["pan no"; "pan"] <-> In k ["pan"; "pan no"; "pan"])
    by (intros k; simpl; tauto).
  split; [exact H|].
  exact (suggest_column_ignores_keyword_order
           make_example_df ["pan no"; "pan"] ["pan"; "pan no"; "pan"] H).
Defined.

(** X4.  Labels are lower-cased before the test and keywords are not: a
    keyword that holds an upper-case letter never matches, and adding it to
    the list changes no guess. *)
Theorem upper_case_keyword_is_dead
  (df : DataFrame) (k : string) (keywords : list string) :
  has_upper k = true ->
  suggest_column df [k] = None /\
  suggest_column df (k :: keywords) = suggest_column df keywords.
Proof.
  intros U. split.
  - apply find_none_iff, Forall_forall. intros c _. simpl.
    now rewrite (upper_keyword_never_contained k c U).
  - unfold suggest_column. apply find_pointwise. intros c. simpl.
    now rewrite (upper_keyword_never_contained k c U).
Qed.

Lemma upper_case_keyword_is_dead_witness :
  has_upper "Truck" = true /\
  suggest_column make_example_df ["Truck"] = None /\
  suggest_column make_example_df ("Truck" :: broker_keywords)
  = suggest_column make_example_df broker_keywords.
Proof.
  split; [reflexivity|].
  exact (upper_case_keyword_is_dead make_example_df "Truck" broker_keywords eq_refl).
Defined.

(** X5.  Edge cases of the guess: without keywords, or on a frame without
    columns, there is no guess; the empty keyword is contained in every label
    and makes the first column the guess. *)
Theorem suggest_column_edge_keywords (df : DataFrame) (keywords : list string) :
  suggest_column df [] = None /\
  suggest_column [] keywords = None /\
  suggest_column df ("" :: keywords) = hd_error (columns df).
Proof.
  split; [|split].
  - apply find_none_iff, Forall_forall. intros c _. reflexivity.
  - reflexivity.
  - unfold suggest_column. destruct (columns df) as [|c cs]; [reflexivity|].
    simpl. now rewrite contains_empty.
Qed.

(** X6.  The default of a mapping select box is the guess when there is one,
    the first column otherwise; it is always a label of the frame, and there
    is none only when the frame has no column. *)
Theorem selectbox_default_of_guess (df : DataFrame) (keywords : list string) :
  selectbox_default df (suggest_column df keywords)
  = match suggest_column df keywords with
    | Some c => Some c
    | None => hd_error (columns df)
    end /\
  match selectbox_default df (suggest_column df keywords) with
  | Some c => In c (columns df)
  | None => columns df = []
  end.
Proof.
  split; [|apply selectbox_default_in].
  unfold selectbox_default.
  destruct (suggest_column df keywords) as [c|] eqn:G; [|reflexivity].
  apply suggest_column_in in G.
  assert (E : existsb (String.eqb c) (columns df) = true).
  { apply existsb_exists. exists c. split; [exact G | apply String.eqb_refl]. }
  now rewrite E.
Qed.

(** X7.  On a frame with at least one column and distinct labels the default
    mapping always projects: the four defaults exist, the view is built
    without [KeyError] or [ValueError], and the default lookup is the filter
    applied to that view. *)
Theorem default_mapping_projects (df : DataFrame) :
  NoDup (columns df) -> df <> [] ->
  exists t b pn pno res,
    selectbox_default df (truck_guess df) = Some t /\
    selectbox_default df (broker_guess df) = Some b /\
    selectbox_default df (panname_guess df) = Some pn /\
    selectbox_default df (panno_guess df) = Some pno /\
    project_view df t b pn pno = Ok res /\
    forall q exact,
      default_lookup df q exact = apply_filter res (active_query [] q) exact.
Proof.
  intros N Hne.
  assert (D : forall g, exists c, selectbox_default df g = Some c /\ In c (columns df)).
  { intros g. pose proof (selectbox_default_in df g) as H.
    destruct (selectbox_default df g) as [c|]; [now exists c|].
    destruct df; [congruence | discriminate]. }
  destruct (D (truck_guess df)) as (t & Et & It).
  destruct (D (broker_guess df)) as (b & Eb & Ib).
  destruct (D (panname_guess df)) as (pn & En & In_).
  destruct (D (panno_guess df)) as (pno & Eo & Io).
  destruct (project_view_ok df t b pn pno N It Ib In_ Io) as [res P].
  exists t, b, pn, pno, res. repeat (split; [assumption|]).
  intros q exact. unfold default_lookup. rewrite Et, Eb, En, Eo.
  unfold filter_logic. now rewrite P.
Qed.

Lemma default_mapping_projects_witness :
  NoDup (columns make_example_df) /\ make_example_df <> [] /\
  exists t b pn pno res,
    selectbox_default make_example_df (truck_guess make_example_df) = Some t /\
    selectbox_default make_example_df (broker_guess make_example_df) = Some b /\
    selectbox_default make_example_df (panname_guess make_example_df) = Some pn /\
    selectbox_default make_example_df (panno_guess make_example_df) = Some pno /\
    project_view make_example_df t b pn pno = Ok res /\
    forall q exact,
      default_lookup make_example_df q exact
      = apply_filter res (active_query [] q) exact.
Proof.
  assert (N : NoDup (columns make_example_df))
    by (repeat constructor; simpl; intuition discriminate).
  assert (E : make_example_df <> []) by discriminate.
  split; [exact N|]. split; [exact E|].
  exact (default_mapping_projects make_example_df N E).
Defined.



(* ================================================================= *)
(** ** Further facts: the filter block for any query *)

Section MaskFacts.

Lemma subseq_nil_l {A} (l : list A) : subseq [] l.
Proof. induction l; constructor; assumption. Qed.

Lemma select_subseq {A} (mask : list bool) : forall l : list A,
  subseq (select mask l) l.
Proof.
  induction mask as [|b mask IH]; intros [|x l]; simpl;
    try apply subseq_nil_l.
  destruct b; constructor; apply IH.
Qed.

Lemma select_all_true {A} (mask : list bool) : forall l : list A,
  Forall (fun b => b = true) mask -> length l = length mask ->
  select mask l = l.
Proof.
  induction mask as [|b mask IH]; intros [|x l] F L; simpl in *;
    try reflexivity; try discriminate.
  inversion F; subst. injection L as L. now rewrite IH.
Qed.

Lemma loc_all_true (df : DataFrame) mask :
  Forall (fun b => b = true) mask -> uniform (length mask) df ->
  loc df mask = df.
Proof.
  intros F U. unfold loc. rewrite <- (map_id df) at 2.
  apply map_ext_in. intros [c s] I.
  apply (proj1 (Forall_forall _ _) U) in I. simpl in *.
  now rewrite select_all_true.
Qed.

Lemma columns_loc (df : DataFrame) mask : columns (loc df mask) = columns df.
Proof. unfold columns, loc. rewrite map_map. now apply map_ext. Qed.

Lemma loc_well_formed (df : DataFrame) mask :
  uniform (length mask) df -> well_formed (loc df mask).
Proof.
  intros U. pose proof (loc_uniform mask U) as U'.
  destruct df as [|col df]; [constructor|].
  assert (N : loc (col :: df) mask <> []) by discriminate.
  unfold well_formed. now rewrite (uniform_len U' N).
Qed.

(** The filter block on a view, for a query that is not empty: the test of
    the mode, when it can be built, is applied to the first column. *)
Lemma apply_filter_row_test s rest aq exact :
  aq <> "" ->
  apply_filter (("Truck No.", s) :: rest) aq exact
  = (p <- row_test aq exact ;;
     Ok (loc (("Truck No.", s) :: rest) (map (fun v => p (str_of v)) s))).
Proof.
  intros Hq. unfold apply_filter, row_test.
  rewrite (proj2 (truthy_true_iff aq) Hq), getitem_head.
  destruct exact; cbn [bind].
  - now rewrite exact_mask.
  - unfold str_contains, astype_str.
    destruct (Re.compile aq); cbn [bind negb]; try reflexivity.
    now rewrite map_map.
Qed.

(** What a lookup that returns a table has done. *)
Lemma run_lookup_inv df tc bc pc nc selected q exact out :
  run_lookup df tc bc pc nc selected q exact = Ok out ->
  exists s rest,
    project_view df tc bc pc nc = Ok (("Truck No.", s) :: rest) /\
    ((active_query selected q = "" /\ out = ("Truck No.", s) :: rest) \/
     (active_query selected q <> "" /\
      exists p, row_test (active_query selected q) exact = Ok p /\
                out = loc (("Truck No.", s) :: rest)
                          (map (fun v => p (str_of v)) s))).
Proof.
  unfold run_lookup. intros H.
  destruct (project_view df tc bc pc nc) as [res| |] eqn:P; try discriminate.
  cbn [bind] in H.
  destruct (project_view_inv _ _ _ _ _ _ P) as (c1 & c2 & c3 & c4 & _ & _ & _ & _ & E).
  subst res. do 2 eexists. split; [reflexivity|].
  destruct (string_dec (active_query selected q) "") as [B|B].
  - left. split; [exact B|]. rewrite B in H. cbn in H. now injection H as <-.
  - right. split; [exact B|].
    rewrite (apply_filter_row_test _ _ _ exact B) in H.
    destruct (row_test (active_query selected q) exact) as [p| |];
      try discriminate.
    exists p. split; [reflexivity|]. cbn [bind] in H. now injection H as <-.
Qed.

Lemma run_lookup_nil df tc bc pc nc q exact :
  run_lookup df tc bc pc nc [] q exact = filter_logic df tc bc pc nc q exact.
Proof. reflexivity. Qed.

Lemma view_uniform df tc bc pc nc s rest :
  well_formed df ->
  project_view df tc bc pc nc = Ok (("Truck No.", s) :: rest) ->
  uniform (length s) (("Truck No.", s) :: rest) /\ length s = len df.
Proof.
  intros W P. destruct (project_view_uniform _ _ _ _ _ _ W P) as [U L].
  cbn [len] in L. now rewrite L.
Qed.

End MaskFacts.

(** X9.  Whatever the query, the pick and the mode, a lookup that returns a
    table returns a frame with the four output labels "Truck No.",
    "Broker Name", "PAN Name", "PAN No.", in that order, whose columns all
    have the same length, with at most as many rows as the input, and whose
    rows are rows of the projected view in their original order. *)
Theorem lookup_result_shape
  (df : DataFrame) (tc bc pc nc : string) (selected : list string)
  (q : string) (exact : bool) (out : DataFrame) :
  well_formed df ->
  run_lookup df tc bc pc nc selected q exact = Ok out ->
  columns out = out_labels /\
  well_formed out /\
  len out <= len df /\
  exists res, project_view df tc bc pc nc = Ok res /\ subseq (rows out) (rows res).
Proof.
  intros W H.
  destruct (run_lookup_inv _ _ _ _ _ _ _ _ _ H) as (s & rest & P & C).
  destruct (view_uniform _ _ _ _ _ _ _ W P) as [U L].
  destruct (project_view_inv _ _ _ _ _ _ P) as (c1 & c2 & c3 & c4 & _ & _ & _ & _ & E).
  assert (Cl : columns (("Truck No.", s) :: rest) = out_labels)
    by (rewrite E; reflexivity).
  destruct C as [[_ ->] | [_ (p & _ & ->)]].
  - split; [exact Cl|]. split; [|split].
    + unfold well_formed. exact U.
    + cbn [len]. lia.
    + eexists. split; [exact P|]. clear. induction (rows _); constructor; assumption.
  - assert (U' : uniform (length (map (fun v => p (str_of v)) s))
                         (("Truck No.", s) :: rest)) by now rewrite length_map.
    split; [now rewrite columns_loc|]. split; [|split].
    + now apply loc_well_formed.
    + rewrite <- L. apply (len_loc_le (("Truck No.", s) :: rest)).
    + eexists. split; [exact P|]. rewrite (rows_loc _ U'). apply select_subseq.
Qed.

Lemma lookup_result_shape_witness :
  well_formed null_truck_df /\
  run_lookup null_truck_df "Truck No." "Broker Name" "PAN Name" "PAN No."
             ["GJ06BX1706"] "ignored" true = Ok one_truck_df /\
  columns one_truck_df = out_labels /\
  well_formed one_truck_df /\
  len one_truck_df <= len null_truck_df /\
  exists res, project_view null_truck_df "Truck No." "Broker Name" "PAN Name" "PAN No."
              = Ok res /\ subseq (rows one_truck_df) (rows res).
Proof.
  assert (W : well_formed null_truck_df) by (repeat constructor).
  assert (H : run_lookup null_truck_df "Truck No." "Broker Name" "PAN Name" "PAN No."
                         ["GJ06BX1706"] "ignored" true = Ok one_truck_df)
    by (vm_compute; reflexivity).
  split; [exact W|]. split; [exact H|].
  exact (lookup_result_shape null_truck_df "Truck No." "Broker Name" "PAN Name"
           "PAN No." ["GJ06BX1706"] "ignored" true one_truck_df W H).
Defined.

(** X10.  Filtering is idempotent: applying the filter block again, with the
    same active query and mode, to a table it returned gives that table
    back. *)
Theorem apply_filter_idempotent
  (df : DataFrame) (tc bc pc nc aq : string) (exact : bool) (res out : DataFrame) :
  well_formed df ->
  project_view df tc bc pc nc = Ok res ->
  apply_filter res aq exact = Ok out ->
  apply_filter out aq exact = Ok out.
Proof.
  intros W P H.
  destruct (project_view_inv _ _ _ _ _ _ P) as (c1 & c2 & c3 & c4 & _ & _ & _ & _ & E).
  rewrite E in P, H.
  destruct (view_uniform _ _ _ _ _ _ _ W P) as [U _].
  destruct (string_dec aq "") as [B|B].
  - subst aq. cbn in H. injection H as <-. reflexivity.
  - rewrite (apply_filter_row_test _ _ _ exact B) in H.
    destruct (row_test aq exact) as [p| |] eqn:T; try discriminate.
    cbn [bind] in H. injection H as <-.
    set (f := fun v => p (str_of v)).
    set (rest := [("Broker Name", snd c2); ("PAN Name", snd c3); ("PAN No.", snd c4)]) in *.
    change (loc (("Truck No.", snd c1) :: rest) (map f (snd c1)))
      with (("Truck No.", select (map f (snd c1)) (snd c1))
              :: loc rest (map f (snd c1))).
    rewrite (apply_filter_row_test _ _ _ exact B), T. cbn [bind].
    fold f. f_equal.
    change (("Truck No.", select (map f (snd c1)) (snd c1))
              :: loc rest (map f (snd c1)))
      with (loc (("Truck No.", snd c1) :: rest) (map f (snd c1))).
    rewrite select_map_filter.
    apply loc_all_true.
    + apply Forall_map, Forall_forall. intros v I. now apply filter_In in I.
    + rewrite length_map.
      assert (U' : uniform (length (map f (snd c1))) (("Truck No.", snd c1) :: rest))
        by now rewrite length_map.
      pose proof (loc_uniform _ U') as U2.
      rewrite <- (select_length (map f (snd c1)) (snd c1)) in U2
        by now rewrite length_map.
      unfold rest, loc in U2. cbn [map fst snd] in U2.
      rewrite !select_map_filter in U2. exact U2.
Qed.

Lemma apply_filter_idempotent_witness :
  well_formed null_truck_df /\
  project_view null_truck_df "Truck No." "Broker Name" "PAN Name" "PAN No."
    = Ok null_truck_df /\
  apply_filter null_truck_df "gj06" false = Ok one_truck_df /\
  apply_filter one_truck_df "gj06" false = Ok one_truck_df.
Proof.
  assert (W : well_formed null_truck_df) by (repeat constructor).
  assert (P : project_view null_truck_df "Truck No." "Broker Name" "PAN Name" "PAN No."
              = Ok null_truck_df) by reflexivity.
  assert (H : apply_filter null_truck_df "gj06" false = Ok one_truck_df)
    by (vm_compute; reflexivity).
  split; [exact W|]. split; [exact P|]. split; [exact H|].
  exact (apply_filter_idempotent null_truck_df "Truck No." "Broker Name" "PAN Name"
           "PAN No." "gj06" false null_truck_df one_truck_df W P H).
Defined.

(* ================================================================= *)
(** ** Further facts: the two modes *)

Section ModeFacts.

Lemma parse_ok_depth s : forall cur stack rep r,
  Re.parse s cur stack rep = Ok r -> paren_depth s (length stack) = Some 0.
Proof.
  induction s as [|c s IH]; intros cur stack rep r; cbn [Re.parse paren_depth].
  - destruct stack; [reflexivity | discriminate].
  - destruct (Ascii.eqb c "(") eqn:E1.
    + destruct s as [|a s']; [exact (IH _ (cur :: stack) _ r)|].
      destruct (Ascii.eqb a "?") eqn:Q.
      * apply Ascii.eqb_eq in Q. subst a. discriminate.
      * intros H. apply (IH Re.empty_frame (cur :: stack) false r).
        destruct a as [[] [] [] [] [] [] [] []]; try discriminate Q; exact H.
    + destruct (Ascii.eqb c ")") eqn:E2.
      * destruct stack as [|parent stack']; [discriminate|].
        exact (IH _ stack' _ r).
      * destruct (Ascii.eqb c "|"); [exact (IH _ stack _ r)|].
        destruct (Re.is_quantifier c).
        -- destruct (Re.items cur); [discriminate|].
           destruct rep; [destruct (Ascii.eqb c "*"); discriminate|].
           exact (IH _ stack _ r).
        -- destruct (Re.is_unmodelled c); [discriminate|].
           destruct (Ascii.eqb c "."); exact (IH _ stack _ r).
Qed.

Lemma identifier_rows_loc_first (p : string -> bool) s rest :
  uniform (length s) (("Truck No.", s) :: rest) ->
  rows (loc (("Truck No.", s) :: rest) (map (fun v => p (str_of v)) s))
  = filter (fun r => p (identifier r)) (rows (("Truck No.", s) :: rest)).
Proof. intros U. exact (rows_loc_first p U). Qed.

Lemma Forall_rows_eq {A} (Q : A -> Prop) (l1 l2 : list A) :
  l1 = l2 -> Forall Q l2 -> Forall Q l1.
Proof. now intros ->. Qed.

End ModeFacts.

(** X11.  Partial mode, for any query that compiles: the rows returned are
    the rows of the view in whose truck number, as a string, the compiled
    expression is found, that is, some stretch of the string belongs to the
    language of the expression, letter case ignored. *)
Theorem partial_filter_keeps_rows_matching_pattern
  (df : DataFrame) (tc bc pc nc : string) (selected : list string) (q : string)
  (res : DataFrame) (r : Re.regex) :
  well_formed df ->
  project_view df tc bc pc nc = Ok res ->
  active_query selected q <> "" ->
  Re.compile (active_query selected q) = Ok r ->
  exists out,
    run_lookup df tc bc pc nc selected q false = Ok out /\
    rows out = filter (fun row => Re.search true r (identifier row)) (rows res) /\
    Forall (fun row => exists pre m post,
                identifier row = (pre ++ m ++ post)%string /\ Re.matches true r m)
           (rows out).
Proof.
  intros W P B C.
  destruct (project_view_inv _ _ _ _ _ _ P) as (c1 & c2 & c3 & c4 & _ & _ & _ & _ & E).
  rewrite E in P. destruct (view_uniform _ _ _ _ _ _ _ W P) as [U _].
  rewrite <- E in P. unfold run_lookup. rewrite P. cbn [bind]. rewrite E.
  rewrite (apply_filter_row_test _ _ _ false B). unfold row_test.
  rewrite C. cbn [bind]. eexists. split; [reflexivity|].
  pose proof (identifier_rows_loc_first (Re.search true r) _ _ U) as R.
  split; [exact R|].
  apply (Forall_rows_eq _ _ _ R).
  apply Forall_forall. intros row I. apply filter_In in I as [_ S].
  now apply ReFacts.search_spec.
Qed.

Lemma partial_filter_keeps_rows_matching_pattern_witness :
  well_formed null_truck_df /\
  project_view null_truck_df "Truck No." "Broker Name" "PAN Name" "PAN No."
    = Ok null_truck_df /\
  active_query [] " j.6 " <> "" /\
  Re.compile (active_query [] " j.6 ")
    = Ok (Re.Seq (Re.Lit "j") (Re.Seq Re.Dot (Re.Seq (Re.Lit "6") Re.Eps))) /\
  exists out,
    run_lookup null_truck_df "Truck No." "Broker Name" "PAN Name" "PAN No."
               [] " j.6 " false = Ok out /\
    rows out = filter (fun row =>
                         Re.search true
                           (Re.Seq (Re.Lit "j") (Re.Seq Re.Dot (Re.Seq (Re.Lit "6") Re.Eps)))
                           (identifier row))
                      (rows null_truck_df) /\
    Forall (fun row => exists pre m post,
                identifier row = (pre ++ m ++ post)%string /\
                Re.matches true
                  (Re.Seq (Re.Lit "j") (Re.Seq Re.Dot (Re.Seq (Re.Lit "6") Re.Eps))) m)
           (rows out).
Proof.
  assert (W : well_formed null_truck_df) by (repeat constructor).
  assert (P : project_view null_truck_df "Truck No." "Broker Name" "PAN Name" "PAN No."
              = Ok null_truck_df) by reflexivity.
  assert (B : active_query [] " j.6 " <> "") by (vm_compute; discriminate).
  assert (C : Re.compile (active_query [] " j.6 ")
              = Ok (Re.Seq (Re.Lit "j") (Re.Seq Re.Dot (Re.Seq (Re.Lit "6") Re.Eps))))
    by (vm_compute; reflexivity).
  split; [exact W|]. split; [exact P|]. split; [exact B|]. split; [exact C|].
  exact (partial_filter_keeps_rows_matching_pattern
           null_truck_df "Truck No." "Broker Name" "PAN Name" "PAN No."
           [] " j.6 " null_truck_df _ W P B C).
Defined.

(** X12.  The query is stripped, the cells are not: in exact mode, with a
    query that is not blank, every row returned has a truck number without
    whitespace at either end, so a row whose cell carries a leading or
    trailing blank is never found. *)
Theorem exact_mode_returns_trimmed_identifiers
  (df : DataFrame) (tc bc pc nc : string) (selected : list string) (q : string)
  (out : DataFrame) :
  well_formed df ->
  active_query selected q <> "" ->
  run_lookup df tc bc pc nc selected q true = Ok out ->
  Forall (fun row => trimmed (identifier row)) (rows out).
Proof.
  intros W B H.
  destruct (run_lookup_inv _ _ _ _ _ _ _ _ _ H) as (s & rest & P & C).
  destruct (view_uniform _ _ _ _ _ _ _ W P) as [U _].
  destruct C as [[B' _] | [_ (p & T & ->)]]; [congruence|].
  unfold row_test in T. injection T as <-.
  apply (Forall_rows_eq _ _ _
           (identifier_rows_loc_first
              (fun x => String.eqb (PyStr.casefold x)
                                   (PyStr.casefold (active_query selected q))) _ _ U)).
  apply Forall_forall. intros row I. apply filter_In in I as [_ X].
  apply String.eqb_eq in X. unfold PyStr.casefold in X.
  apply trimmed_lower. rewrite X. apply trimmed_lower.
  unfold active_query. apply strip_trimmed.
Qed.

Lemma exact_mode_returns_trimmed_identifiers_witness :
  well_formed null_truck_df /\
  active_query [] " gj06bx1706 " <> "" /\
  run_lookup null_truck_df "Truck No." "Broker Name" "PAN Name" "PAN No."
             [] " gj06bx1706 " true = Ok one_truck_df /\
  Forall (fun row => trimmed (identifier row)) (rows one_truck_df).
Proof.
  assert (W : well_formed null_truck_df) by (repeat constructor).
  assert (B : active_query [] " gj06bx1706 " <> "") by (vm_compute; discriminate).
  assert (H : run_lookup null_truck_df "Truck No." "Broker Name" "PAN Name" "PAN No."
                         [] " gj06bx1706 " true = Ok one_truck_df)
    by (vm_compute; reflexivity).
  split; [exact W|]. split; [exact B|]. split; [exact H|].
  exact (exact_mode_returns_trimmed_identifiers
           null_truck_df "Truck No." "Broker Name" "PAN Name" "PAN No."
           [] " gj06bx1706 " one_truck_df W B H).
Defined.

(** X13.  In partial mode a query whose first character, once stripped, is
    one of the quantifiers [*], [+], [?] or a closing parenthesis makes the
    lookup raise [re.error], whatever follows and whatever the table. *)
Theorem leading_quantifier_query_raises
  (df : DataFrame) (tc bc pc nc : string) (selected : list string) (q : string)
  (res : DataFrame) (c : ascii) (rest : string) :
  project_view df tc bc pc nc = Ok res ->
  active_query selected q = String c rest ->
  Re.is_quantifier c = true \/ c = ")"%char ->
  exists msg, run_lookup df tc bc pc nc selected q false = Raise (ReError msg).
Proof.
  intros P A Hc.
  destruct (project_view_inv _ _ _ _ _ _ P) as (c1 & c2 & c3 & c4 & _ & _ & _ & _ & E).
  unfold run_lookup. rewrite P. cbn [bind]. rewrite E.
  assert (B : active_query selected q <> "") by (rewrite A; discriminate).
  rewrite (apply_filter_row_test _ _ _ false B). unfold row_test. rewrite A.
  unfold Re.compile. cbn [Re.parse].
  destruct Hc as [Q | ->].
  - assert (E1 : Ascii.eqb c "(" = false)
      by (destruct c as [[] [] [] [] [] [] [] []]; try reflexivity; discriminate Q).
    assert (E2 : Ascii.eqb c ")" = false)
      by (destruct c as [[] [] [] [] [] [] [] []]; try reflexivity; discriminate Q).
    assert (E3 : Ascii.eqb c "|" = false)
      by (destruct c as [[] [] [] [] [] [] [] []]; try reflexivity; discriminate Q).
    rewrite E1, E2, E3, Q. cbn. eexists. reflexivity.
  - cbn. eexists. reflexivity.
Qed.

Lemma leading_quantifier_query_raises_witness :
  project_view null_truck_df "Truck No." "Broker Name" "PAN Name" "PAN No."
    = Ok null_truck_df /\
  active_query [] " *GJ06 " = "*GJ06" /\
  (Re.is_quantifier "*" = true \/ "*"%char = ")"%char) /\
  exists msg, run_lookup null_truck_df "Truck No." "Broker Name" "PAN Name" "PAN No."
                         [] " *GJ06 " false = Raise (ReError msg).
Proof.
  assert (P : project_view null_truck_df "Truck No." "Broker Name" "PAN Name" "PAN No."
              = Ok null_truck_df) by reflexivity.
  assert (A : active_query [] " *GJ06 " = "*GJ06") by reflexivity.
  assert (Hc : Re.is_quantifier "*" = true \/ "*"%char = ")"%char)
    by (left; reflexivity).
  split; [exact P|]. split; [exact A|]. split; [exact Hc|].
  exact (leading_quantifier_query_raises
           null_truck_df "Truck No." "Broker Name" "PAN Name" "PAN No."
           [] " *GJ06 " null_truck_df "*"%char "GJ06" P A Hc).
Defined.

(** X14.  Within the covered pattern syntax, partial mode returns a table
    for a non-blank query only if the parentheses of the stripped query are
    balanced: every closing parenthesis closes an open one and none is left
    open (queries outside the covered syntax have no modelled outcome). *)
Theorem partial_result_needs_balanced_parentheses
  (df : DataFrame) (tc bc pc nc : string) (selected : list string) (q : string)
  (out : DataFrame) :
  active_query selected q <> "" ->
  run_lookup df tc bc pc nc selected q false = Ok out ->
  paren_depth (active_query selected q) 0 = Some 0.
Proof.
  intros B H.
  destruct (run_lookup_inv _ _ _ _ _ _ _ _ _ H) as (s & rest & _ & C).
  destruct C as [[B' _] | [_ (p & T & _)]]; [congruence|].
  unfold row_test in T.
  destruct (Re.compile (active_query selected q)) as [r| |] eqn:C; try discriminate.
  exact (parse_ok_depth _ _ [] _ _ C).
Qed.

Lemma partial_result_needs_balanced_parentheses_witness :
  active_query [] "gj06(bx|zz)" <> "" /\
  run_lookup null_truck_df "Truck No." "Broker Name" "PAN Name" "PAN No."
             [] "gj06(bx|zz)" false = Ok one_truck_df /\
  paren_depth (active_query [] "gj06(bx|zz)") 0 = Some 0.
Proof.
  assert (B : active_query [] "gj06(bx|zz)" <> "") by (vm_compute; discriminate).
  assert (H : run_lookup null_truck_df "Truck No." "Broker Name" "PAN Name" "PAN No."
                         [] "gj06(bx|zz)" false = Ok one_truck_df)
    by (vm_compute; reflexivity).
  split; [exact B|]. split; [exact H|].
  exact (partial_result_needs_balanced_parentheses
           null_truck_df "Truck No." "Broker Name" "PAN Name" "PAN No."
           [] "gj06(bx|zz)" one_truck_df B H).
Defined.

(* ================================================================= *)
(** ** Further facts: the pick list and the data source *)

Section PickFacts.

Lemma leb_neq_ltb x y : String.leb x y = true -> x <> y -> String.ltb x y = true.
Proof.
  unfold String.leb, String.ltb. intros L N.
  destruct (String.compare x y) eqn:C; try reflexivity; try discriminate.
  now apply String.compare_eq_iff in C.
Qed.

Lemma leb_false_ltb x y : String.leb x y = false -> String.ltb y x = true.
Proof.
  unfold String.leb, String.ltb. rewrite (String.compare_antisym y x).
  destruct (String.compare x y); simpl; congruence.
Qed.

Lemma in_unique x : forall l, In x (unique l) <-> In x l.
Proof.
  induction l as [|a l IH]; [reflexivity|].
  cbn [unique In]. rewrite filter_In, IH, negb_true_iff, String.eqb_neq.
  destruct (string_dec a x) as [E|E]; [tauto|].
  split; [tauto|]. intros [H|H]; [tauto|]. right. split; [exact H | congruence].
Qed.

Lemma NoDup_unique : forall l, NoDup (unique l).
Proof.
  induction l as [|a l IH]; cbn [unique]; constructor.
  - rewrite filter_In, String.eqb_refl. intros [_ H]. discriminate.
  - now apply NoDup_filter.
Qed.

Lemma in_insert_sorted x a : forall l, In x (insert_sorted a l) <-> x = a \/ In x l.
Proof.
  induction l as [|y l IH]; simpl; [intuition congruence|].
  destruct (String.leb a y); simpl; [intuition congruence|].
  rewrite IH. intuition congruence.
Qed.

Lemma in_sorted x : forall l, In x (sorted l) <-> In x l.
Proof.
  induction l as [|a l IH]; [reflexivity|].
  cbn [sorted]. rewrite in_insert_sorted, IH. simpl. intuition congruence.
Qed.

Lemma NoDup_insert_sorted a : forall l,
  NoDup l -> ~ In a l -> NoDup (insert_sorted a l).
Proof.
  induction l as [|y l IH]; simpl; intros N I.
  - constructor; [tauto | constructor].
  - destruct (String.leb a y).
    + constructor; [simpl; tauto | exact N].
    + inversion N; subst. constructor.
      * rewrite in_insert_sorted. intuition congruence.
      * apply IH; tauto.
Qed.

Lemma NoDup_sorted : forall l, NoDup l -> NoDup (sorted l).
Proof.
  induction l as [|a l IH]; intros N; [constructor|].
  inversion N; subst. cbn [sorted].
  apply NoDup_insert_sorted; [now apply IH | now rewrite in_sorted].
Qed.

Lemma ascending_insert a : forall l,
  ascending l -> ~ In a l -> ascending (insert_sorted a l).
Proof.
  induction l as [|y l IH]; intros A I; [exact Logic.I|].
  cbn [insert_sorted]. destruct (String.leb a y) eqn:L.
  - split; [|exact A]. apply (leb_neq_ltb _ _ L). intros ->. apply I. now left.
  - assert (Ay : ascending l) by (destruct l; [exact Logic.I | exact (proj2 A)]).
    assert (Il : ~ In a l) by (intros H; apply I; now right).
    specialize (IH Ay Il).
    destruct l as [|z l'].
    + split; [now apply leb_false_ltb | exact Logic.I].
    + cbn [insert_sorted] in *. destruct (String.leb a z).
      * split; [now apply leb_false_ltb | exact IH].
      * split; [exact (proj1 A) | exact IH].
Qed.

Lemma ascending_sorted : forall l, NoDup l -> ascending (sorted l).
Proof.
  induction l as [|a l IH]; intros N; [exact Logic.I|].
  inversion N; subst. cbn [sorted].
  apply ascending_insert; [now apply IH | now rewrite in_sorted].
Qed.

Lemma in_dropna v col : In v (dropna col) <-> In v col /\ v <> SNaN.
Proof.
  unfold dropna. rewrite filter_In. destruct v; intuition congruence.
Qed.

Lemma in_unique_trucks s col :
  In s (unique_trucks col) <-> exists v, In v col /\ v <> SNaN /\ str_of v = s.
Proof.
  unfold unique_trucks. rewrite in_sorted, in_unique, in_map_iff. split.
  - intros (v & E & I). apply in_dropna in I. exists v. tauto.
  - intros (v & I & N & E). exists v. split; [exact E|]. apply in_dropna. tauto.
Qed.

Lemma endswith_app_short suf b : forall a,
  String.length suf <= String.length b ->
  endswith suf (a ++ b) = endswith suf b.
Proof.
  induction a as [|c a IH]; intros L; [reflexivity|].
  cbn [append endswith]. rewrite (IH L).
  destruct (String.eqb_spec suf (String c (a ++ b))) as [E|E]; [|reflexivity].
  exfalso. rewrite E in L. cbn [String.length] in L.
  assert (String.length (a ++ b) >= String.length b); [|lia].
  clear. induction a as [|x a IH]; simpl; lia.
Qed.

End PickFacts.

(** X15.  The pick list offers every truck number of the mapped column that
    is not missing, as a string, each value once, in strictly ascending
    order of code points; a missing cell adds no option. *)
Theorem unique_trucks_sorted_distinct (col : Series) :
  ascending (unique_trucks col) /\
  NoDup (unique_trucks col) /\
  Forall (fun s => exists v, In v col /\ v <> SNaN /\ str_of v = s)
         (unique_trucks col) /\
  Forall (fun v => v = SNaN \/ In (str_of v) (unique_trucks col)) col.
Proof.
  split; [|split; [|split]].
  - apply ascending_sorted, NoDup_unique.
  - apply NoDup_sorted, NoDup_unique.
  - apply Forall_forall. intros s I. now apply in_unique_trucks.
  - apply Forall_forall. intros v I.
    destruct v; [right|right|now left]; apply in_unique_trucks;
      eexists; (split; [exact I|]); split; (reflexivity || discriminate).
Qed.

(** X16.  Picking an option of the list finds its rows: when the option is
    not empty and has no whitespace at either end, the lookup on the pick
    (the typed text is ignored) returns, in exact mode, and in partial mode
    when the option has no special character, a table with a row of that
    truck number. *)
Theorem picked_truck_is_found
  (df : DataFrame) (tc bc pc nc : string) (col : Series) (s q : string)
  (exact : bool) :
  well_formed df ->
  (exists res, project_view df tc bc pc nc = Ok res) ->
  getitem df tc = Ok col ->
  In s (unique_trucks col) ->
  s <> "" -> trimmed s ->
  exact = true \/ Plain.plain s = true ->
  exists out,
    run_lookup df tc bc pc nc [s] q exact = Ok out /\
    exists row, In row (rows out) /\ identifier row = s.
Proof.
  intros W [res P] G I Hs T M.
  assert (A : active_query [s] q = s) by (unfold active_query; now apply strip_id).
  destruct (project_view_inv _ _ _ _ _ _ P)
    as (c1 & c2 & c3 & c4 & [_ G1] & _ & _ & _ & E).
  rewrite G in G1. injection G1 as ->.
  rewrite E in P. destruct (view_uniform _ _ _ _ _ _ _ W P) as [U _].
  rewrite <- E in P.
  apply in_unique_trucks in I as (v & Iv & _ & Ev).
  apply In_nth_error in Iv as [i Hi].
  assert (Hlt : i < length (snd c1)) by (apply nth_error_Some; congruence).
  assert (Ir : In (row i res) (rows res)).
  { unfold rows. apply (in_map (fun k => row k res)).
    rewrite E. cbn [len]. apply in_seq. lia. }
  assert (Id : identifier (row i res) = s).
  { rewrite E. cbn [row map snd identifier]. now rewrite Hi. }
  unfold run_lookup. rewrite P. cbn [bind]. rewrite A.
  destruct M as [-> | Pl].
  - destruct (exact_rows df tc bc pc nc res s W P Hs) as (out & F & R & _).
    exists out. split; [exact F|]. exists (row i res). split; [|exact Id].
    rewrite R. apply filter_In. split; [exact Ir|].
    unfold exact_row. rewrite Id. apply String.eqb_refl.
  - destruct exact.
    + destruct (exact_rows df tc bc pc nc res s W P Hs) as (out & F & R & _).
      exists out. split; [exact F|]. exists (row i res). split; [|exact Id].
      rewrite R. apply filter_In. split; [exact Ir|].
      unfold exact_row. rewrite Id. apply String.eqb_refl.
    + destruct (plain_rows df tc bc pc nc res s W P Hs Pl) as (out & F & R & _).
      exists out. split; [exact F|]. exists (row i res). split; [|exact Id].
      rewrite R. apply filter_In. split; [exact Ir|].
      apply exact_row_substring_row. unfold exact_row. rewrite Id.
      apply String.eqb_refl.
Qed.

Lemma picked_truck_is_found_witness :
  well_formed null_truck_df /\
  (exists res, project_view null_truck_df "Truck No." "Broker Name" "PAN Name" "PAN No."
               = Ok res) /\
  getitem null_truck_df "Truck No." = Ok [SNaN; SStr "GJ06BX1706"] /\
  In "GJ06BX1706" (unique_trucks [SNaN; SStr "GJ06BX1706"]) /\
  "GJ06BX1706" <> "" /\ trimmed "GJ06BX1706" /\
  (true = true \/ Plain.plain "GJ06BX1706" = true) /\
  exists out,
    run_lookup null_truck_df "Truck No." "Broker Name" "PAN Name" "PAN No."
               ["GJ06BX1706"] "typed" true = Ok out /\
    exists row, In row (rows out) /\ identifier row = "GJ06BX1706".
Proof.
  assert (W : well_formed null_truck_df) by (repeat constructor).
  assert (P : exists res, project_view null_truck_df "Truck No." "Broker Name"
                                       "PAN Name" "PAN No." = Ok res)
    by (eexists; reflexivity).
  assert (G : getitem null_truck_df "Truck No." = Ok [SNaN; SStr "GJ06BX1706"])
    by reflexivity.
  assert (I : In "GJ06BX1706" (unique_trucks [SNaN; SStr "GJ06BX1706"]))
    by (left; reflexivity).
  assert (N : "GJ06BX1706" <> "") by discriminate.
  assert (T : trimmed "GJ06BX1706") by (split; reflexivity).
  assert (M : true = true \/ Plain.plain "GJ06BX1706" = true) by (left; reflexivity).
  repeat (split; [assumption|]).
  exact (picked_truck_is_found null_truck_df "Truck No." "Broker Name" "PAN Name"
           "PAN No." [SNaN; SStr "GJ06BX1706"] "GJ06BX1706" "typed" true
           W P G I N T M).
Defined.

(** X17.  Every file type the uploader lets through is read: a name that
    ends, in any letter case, with a dot and one of csv, txt, xlsx, xlsm,
    xls goes to [read_csv] for the first two and to [read_excel] for the
    others, without warning, and the script takes its data from the upload
    whatever the example toggle says. *)
Theorem load_file_reads_uploader_types
  (stem ext t : string) (use_example : bool) :
  In t uploader_types ->
  PyStr.lower ext = ("." ++ t)%string ->
  let r := if existsb (String.eqb t) ["csv"; "txt"] then ReadCsv else ReadExcel in
  load_file (Some (stem ++ ext)%string) = Loaded r /\
  choose_source (Some (stem ++ ext)%string) use_example = FromUpload r.
Proof.
  intros I L r.
  assert (E : load_file (Some (stem ++ ext)%string) = Loaded r).
  { unfold load_file, endswith_any. cbn [existsb].
    rewrite lower_app, L.
    simpl in I.
    destruct I as [<-|[<-|[<-|[<-|[<-|[]]]]]]; unfold r; cbn [append];
      repeat match goal with
             | |- context [endswith ?suf (?a ++ ?b)] =>
                 rewrite (endswith_app_short suf b a) by (simpl; lia)
             end;
      repeat match goal with
             | |- context [endswith ?suf (?a ++ ?b)] =>
                 destruct (endswith suf (a ++ b))
             end;
      reflexivity. }
  split; [exact E|]. unfold choose_source. now rewrite E.
Qed.

Lemma load_file_reads_uploader_types_witness :
  In "xlsx" uploader_types /\
  PyStr.lower ".XLSX" = ("." ++ "xlsx")%string /\
  load_file (Some ("Trips Aug" ++ ".XLSX")%string) = Loaded ReadExcel /\
  choose_source (Some ("Trips Aug" ++ ".XLSX")%string) true = FromUpload ReadExcel.
Proof.
  assert (I : In "xlsx" uploader_types) by (right; right; left; reflexivity).
  assert (L : PyStr.lower ".XLSX" = ("." ++ "xlsx")%string) by reflexivity.
  split; [exact I|]. split; [exact L|].
  exact (load_file_reads_uploader_types "Trips Aug" ".XLSX" "xlsx" true I L).
Defined.

(* ================================================================= *)
(** ** Further facts: queries without special characters, and totality *)

(** X18.  Partial mode, for a non-blank query without any of the characters
    [. ( ) | * + ? ^ $ [ \ {]: the lookup returns a table, and its rows are
    the rows of the view whose truck number, lower-cased, contains the
    lower-cased stripped query as a substring. *)
Theorem plain_query_partial_is_literal_substring
  (df : DataFrame) (tc bc pc nc : string) (selected : list string) (q : string)
  (res : DataFrame) :
  well_formed df ->
  project_view df tc bc pc nc = Ok res ->
  active_query selected q <> "" ->
  Plain.plain (active_query selected q) = true ->
  exists out,
    run_lookup df tc bc pc nc selected q false = Ok out /\
    rows out = filter (fun row => PyStr.contains
                                    (PyStr.lower (active_query selected q))
                                    (PyStr.lower (identifier row)))
                      (rows res) /\
    Forall (fun row => exists pre post,
                PyStr.lower (identifier row)
                = (pre ++ PyStr.lower (active_query selected q) ++ post)%string)
           (rows out).
Proof.
  intros W P B Pl.
  destruct (plain_rows df tc bc pc nc res _ W P B Pl) as (out & F & R & _).
  exists out. split; [unfold run_lookup; rewrite P; exact F|].
  split; [exact R|].
  apply Forall_forall. intros row I. rewrite R in I.
  apply filter_In in I as [_ C]. now apply contains_spec.
Qed.

Lemma plain_query_partial_is_literal_substring_witness :
  well_formed null_truck_df /\
  project_view null_truck_df "Truck No." "Broker Name" "PAN Name" "PAN No."
    = Ok null_truck_df /\
  active_query [] " bx17 " <> "" /\
  Plain.plain (active_query [] " bx17 ") = true /\
  exists out,
    run_lookup null_truck_df "Truck No." "Broker Name" "PAN Name" "PAN No."
               [] " bx17 " false = Ok out /\
    rows out = filter (fun row => PyStr.contains
                                    (PyStr.lower (active_query [] " bx17 "))
                                    (PyStr.lower (identifier row)))
                      (rows null_truck_df) /\
    Forall (fun row => exists pre post,
                PyStr.lower (identifier row)
                = (pre ++ PyStr.lower (active_query [] " bx17 ") ++ post)%string)
           (rows out).
Proof.
  assert (W : well_formed null_truck_df) by (repeat constructor).
  assert (P : project_view null_truck_df "Truck No." "Broker Name" "PAN Name" "PAN No."
              = Ok null_truck_df) by reflexivity.
  assert (B : active_query [] " bx17 " <> "") by (vm_compute; discriminate).
  assert (Pl : Plain.plain (active_query [] " bx17 ") = true) by reflexivity.
  split; [exact W|]. split; [exact P|]. split; [exact B|]. split; [exact Pl|].
  exact (plain_query_partial_is_literal_substring
           null_truck_df "Truck No." "Broker Name" "PAN Name" "PAN No."
           [] " bx17 " null_truck_df W P B Pl).
Defined.

(** X19.  For a non-blank query without special characters both modes
    return a table, and every row exact mode returns is also returned by
    partial mode. *)
Theorem plain_query_exact_rows_within_partial_rows
  (df : DataFrame) (tc bc pc nc : string) (selected : list string) (q : string)
  (res : DataFrame) :
  well_formed df ->
  project_view df tc bc pc nc = Ok res ->
  active_query selected q <> "" ->
  Plain.plain (active_query selected q) = true ->
  exists oute outp,
    run_lookup df tc bc pc nc selected q true = Ok oute /\
    run_lookup df tc bc pc nc selected q false = Ok outp /\
    incl (rows oute) (rows outp).
Proof.
  intros W P B Pl.
  destruct (exact_rows df tc bc pc nc res _ W P B) as (oute & Fe & Re & _).
  destruct (plain_rows df tc bc pc nc res _ W P B Pl) as (outp & Fp & Rp & _).
  exists oute, outp. unfold run_lookup. rewrite P. cbn [bind].
  split; [exact Fe|]. split; [exact Fp|].
  intros row I. rewrite Re in I. rewrite Rp.
  apply filter_In in I as [I X]. apply filter_In.
  split; [exact I | now apply exact_row_substring_row].
Qed.

Lemma plain_query_exact_rows_within_partial_rows_witness :
  well_formed null_truck_df /\
  project_view null_truck_df "Truck No." "Broker Name" "PAN Name" "PAN No."
    = Ok null_truck_df /\
  active_query [] "gj06bx1706" <> "" /\
  Plain.plain (active_query [] "gj06bx1706") = true /\
  exists oute outp,
    run_lookup null_truck_df "Truck No." "Broker Name" "PAN Name" "PAN No."
               [] "gj06bx1706" true = Ok oute /\
    run_lookup null_truck_df "Truck No." "Broker Name" "PAN Name" "PAN No."
               [] "gj06bx1706" false = Ok outp /\
    incl (rows oute) (rows outp).
Proof.
  assert (W : well_formed null_truck_df) by (repeat constructor).
  assert (P : project_view null_truck_df "Truck No." "Broker Name" "PAN Name" "PAN No."
              = Ok null_truck_df) by reflexivity.
  assert (B : active_query [] "gj06bx1706" <> "") by (vm_compute; discriminate).
  assert (Pl : Plain.plain (active_query [] "gj06bx1706") = true) by reflexivity.
  split; [exact W|]. split; [exact P|]. split; [exact B|]. split; [exact Pl|].
  exact (plain_query_exact_rows_within_partial_rows
           null_truck_df "Truck No." "Broker Name" "PAN Name" "PAN No."
           [] "gj06bx1706" null_truck_df W P B Pl).
Defined.

(** X20.  Once the view is built, only the compilation of a partial-mode
    query can fail: in exact mode, and for a blank active query in either
    mode, the lookup always returns a table. *)
Theorem exact_or_blank_lookup_returns
  (df : DataFrame) (tc bc pc nc : string) (selected : list string) (q : string)
  (exact : bool) (res : DataFrame) :
  project_view df tc bc pc nc = Ok res ->
  exact = true \/ active_query selected q = "" ->
  exists out, run_lookup df tc bc pc nc selected q exact = Ok out.
Proof.
  intros P M. unfold run_lookup. rewrite P. cbn [bind].
  destruct (string_dec (active_query selected q) "") as [B|B].
  - rewrite B. exists res. reflexivity.
  - destruct M as [-> | M]; [|congruence].
    destruct (project_view_inv _ _ _ _ _ _ P)
      as (c1 & c2 & c3 & c4 & _ & _ & _ & _ & E).
    rewrite E, (apply_filter_row_test _ _ _ true B). cbn [row_test bind].
    eexists. reflexivity.
Qed.

Lemma exact_or_blank_lookup_returns_witness :
  project_view null_truck_df "Truck No." "Broker Name" "PAN Name" "PAN No."
    = Ok null_truck_df /\
  (true = true \/ active_query [] "(" = "") /\
  exists out, run_lookup null_truck_df "Truck No." "Broker Name" "PAN Name" "PAN No."
                         [] "(" true = Ok out.
Proof.
  assert (P : project_view null_truck_df "Truck No." "Broker Name" "PAN Name" "PAN No."
              = Ok null_truck_df) by reflexivity.
  assert (M : true = true \/ active_query [] "(" = "") by (left; reflexivity).
  split; [exact P|]. split; [exact M|].
  exact (exact_or_blank_lookup_returns
           null_truck_df "Truck No." "Broker Name" "PAN Name" "PAN No."
           [] "(" true null_truck_df P M).
Defined.
